(** * Observee SDK API gateway (src/main.py)

    A shallow embedding of the FastAPI wrapper around the three Observee SDK
    functions [filter_tools], [get_tool_info] and [execute_tool].

    The Python handlers read the process environment, call into the SDK and
    raise or catch exceptions.  They are embedded as computations in a state
    and exception monad [py] over a [world] that holds [os.environ], the
    chronological log of SDK calls and the SDK's own (abstract) state.  The
    part of FastAPI that the handlers rely on (request validation from the
    pydantic [Field]/[Query] declarations, and the translation of a handler's
    return value or exception into a status code and a body) is embedded next
    to them. *)

From stdpp Require Import base option list strings gmap pretty.

Set Warnings "-register-all".
Open Scope string_scope.
Open Scope list_scope.
Open Scope Z_scope.

(** ** Python values *)

(** Values of type [Any]: what JSON bodies and SDK results are made of. *)
Inductive pyval : Type :=
| PyNone
| PyBool (b : bool)
| PyInt (n : Z)
| PyStr (s : string)
| PyList (items : list pyval)
| PyDict (items : list (string * pyval)).

(** [Dict[str, Any]], in insertion order. *)
Abbreviation pydict := (list (string * pyval)).

(** [bool(s)] for a [str]. *)
Definition bool_str (s : string) : bool := negb (String.eqb s "").

(** ** Validation errors and exceptions *)

(** One entry of a pydantic error list: where it is and the constraint
    that is violated.  A model reports the field name as the location;
    FastAPI puts the part of the request ("body", "query") in front. *)
Inductive verr : Type :=
| field_required (loc : list string)
| greater_than_equal (loc : list string) (ge : Z)
| less_than_equal (loc : list string) (le : Z).

Definition located (part : string) (e : verr) : verr :=
  match e with
  | field_required loc => field_required (part :: loc)
  | greater_than_equal loc ge => greater_than_equal (part :: loc) ge
  | less_than_equal loc le => less_than_equal (part :: loc) le
  end.

(** Instances of [Exception] that travel through the handlers.
    [PyException cls text] is any exception raised by the SDK, of a class
    [cls] derived from [Exception], for which [str(e)] is [text].
    What is raised outside [Exception] ([SystemExit], [KeyboardInterrupt],
    [asyncio.CancelledError]) has no value in this type: no handler
    catches it, and nothing below is about it. *)
Inductive exn : Type :=
| HTTPException (status_code : Z) (detail : string)
| ValidationError (errors : list verr)
| PyException (cls : string) (text : string).

(** [str(e)] of the two framework exceptions is not fixed by main.py: it is
    whatever the installed starlette and pydantic define. *)
Record Framework : Type := {
  HTTPException_str : Z -> string -> string;
  ValidationError_str : list verr -> string
}.

Definition str (fw : Framework) (e : exn) : string :=
  match e with
  | HTTPException status_code detail => HTTPException_str fw status_code detail
  | ValidationError errors => ValidationError_str fw errors
  | PyException _ text => text
  end.

Inductive outcome (A : Type) : Type :=
| Return (a : A)
| Raise (e : exn).
Arguments Return {A} a.
Arguments Raise {A} e.

(** ** Pydantic models *)

Module FilterToolsRequest.
Record t : Type := {
  query : string;
  max_tools : Z;
  filter_type : string;
  observee_api_key : option string
}.
End FilterToolsRequest.

Module FilterToolsResponse.
Record t : Type := {
  tools : list pydict;
  count : Z
}.
End FilterToolsResponse.

Module GetToolInfoRequest.
Record t : Type := {
  tool_name : string;
  observee_api_key : option string
}.
End GetToolInfoRequest.

Module GetToolInfoResponse.
Record t : Type := {
  tool_info : option pydict;
  found : bool
}.
End GetToolInfoResponse.

Module ExecuteToolRequest.
Record t : Type := {
  tool_name : string;
  tool_input : pydict;
  observee_api_key : option string
}.
End ExecuteToolRequest.

Module ExecuteToolResponse.
Record t : Type := {
  result : pyval;
  success : bool;
  error : option string
}.
End ExecuteToolResponse.

(** *** Field declarations

    A field as it arrives (a JSON member or a query parameter) is [None]
    when it is absent.  [Field(...)] makes a field required and puts no
    constraint on its value; [Field(default=d)] fills in [d]; [ge]/[le]
    bound an [int]. *)

Definition required {A : Type} (loc : string) (v : option A) : list verr :=
  match v with
  | Some _ => []
  | None => [field_required [loc]]
  end.

Definition ge_le (loc : string) (lo hi : Z) (v : Z) : list verr :=
  (if lo <=? v then [] else [greater_than_equal [loc] lo]) ++
  (if v <=? hi then [] else [less_than_equal [loc] hi]).

(** [FilterToolsRequest(query=..., max_tools=..., filter_type=...,
    observee_api_key=...)], lines 28-32. *)
Definition FilterToolsRequest_init
    (query : option string) (max_tools : option Z)
    (filter_type : option string) (observee_api_key : option string)
  : list verr + FilterToolsRequest.t :=
  let max_tools := default 10 max_tools in
  let filter_type := default "local_embedding" filter_type in
  match query, ge_le "max_tools" 1 100 max_tools with
  | Some query, [] =>
      inr {| FilterToolsRequest.query := query;
             FilterToolsRequest.max_tools := max_tools;
             FilterToolsRequest.filter_type := filter_type;
             FilterToolsRequest.observee_api_key := observee_api_key |}
  | _, errs => inl (required "query" query ++ errs)
  end.

(** [GetToolInfoRequest(tool_name=..., observee_api_key=...)], lines 38-40. *)
Definition GetToolInfoRequest_init
    (tool_name : option string) (observee_api_key : option string)
  : list verr + GetToolInfoRequest.t :=
  match tool_name with
  | Some tool_name =>
      inr {| GetToolInfoRequest.tool_name := tool_name;
             GetToolInfoRequest.observee_api_key := observee_api_key |}
  | None => inl (required "tool_name" tool_name)
  end.

(** [ExecuteToolRequest(tool_name=..., tool_input=...,
    observee_api_key=...)], lines 46-49. *)
Definition ExecuteToolRequest_init
    (tool_name : option string) (tool_input : option pydict)
    (observee_api_key : option string)
  : list verr + ExecuteToolRequest.t :=
  match tool_name, tool_input with
  | Some tool_name, Some tool_input =>
      inr {| ExecuteToolRequest.tool_name := tool_name;
             ExecuteToolRequest.tool_input := tool_input;
             ExecuteToolRequest.observee_api_key := observee_api_key |}
  | _, _ => inl (required "tool_name" tool_name ++ required "tool_input" tool_input)
  end.

(** ** The SDK and the world *)

(** One call into [observee_agents], with its keyword arguments. *)
Inductive call : Type :=
| call_filter_tools (query : string) (max_tools : Z) (filter_type : string)
    (observee_api_key : string)
| call_get_tool_info (tool_name : string) (observee_api_key : string)
| call_execute_tool (tool_name : string) (tool_input : pydict)
    (observee_api_key : string).

(** The three imported functions.  Each may return or raise, and may change
    the SDK's own state [S]. *)
Record SDK (S : Type) : Type := {
  sdk_filter_tools :
    string -> Z -> string -> string -> S -> outcome (list pydict) * S;
  sdk_get_tool_info :
    string -> string -> S -> outcome (option pydict) * S;
  sdk_execute_tool :
    string -> pydict -> string -> S -> outcome pyval * S
}.
Arguments sdk_filter_tools {S} _.
Arguments sdk_get_tool_info {S} _.
Arguments sdk_execute_tool {S} _.

Record world (S : Type) : Type := {
  environ : gmap string string;
  calls : list call;
  sdk_state : S
}.
Arguments environ {S} _.
Arguments calls {S} _.
Arguments sdk_state {S} _.

(** ** HTTP responses *)

Inductive content : Type :=
| json_FilterToolsResponse (r : FilterToolsResponse.t)
| json_GetToolInfoResponse (r : GetToolInfoResponse.t)
| json_ExecuteToolResponse (r : ExecuteToolResponse.t)
| json_detail (detail : string)
| json_validation (errors : list verr)
| text_plain (s : string).

Record response : Type := {
  status : Z;
  body : content
}.

Definition is_success (status : Z) : bool := (200 <=? status) && (status <? 300).
Definition is_client_error (status : Z) : bool := (400 <=? status) && (status <? 500).
Definition is_server_error (status : Z) : bool := (500 <=? status) && (status <? 600).

Definition missing_credential_message : string :=
  "No API key provided. Set OBSERVEE_API_KEY environment variable or provide in request.".

(** ** The handler monad: state and exceptions *)

Definition py (S A : Type) : Type := world S -> outcome A * world S.

Definition py_return {S A : Type} (a : A) : py S A :=
  fun w => (Return a, w).

Definition py_raise {S A : Type} (e : exn) : py S A :=
  fun w => (Raise e, w).

Definition py_bind {S A B : Type} (m : py S A) (k : A -> py S B) : py S B :=
  fun w =>
    match m w with
    | (Return a, w') => k a w'
    | (Raise e, w') => (Raise e, w')
    end.

(** [try: body / except Exception as e: handler(e)].  Every [exn] is an
    instance of [Exception], so the clause catches every [exn]. *)
Definition try_except {S A : Type} (body : py S A) (handler : exn -> py S A)
  : py S A :=
  fun w =>
    match body w with
    | (Return a, w') => (Return a, w')
    | (Raise e, w') => handler e w'
    end.

Notation "x <~ m ;; k" := (py_bind m (fun x => k))
  (at level 100, m at next level, right associativity).

(** [os.getenv(name)]. *)
Definition os_getenv {S : Type} (name : string) : py S (option string) :=
  fun w => (Return (environ w !! name), w).

(** The world after one more SDK call [c] that left the SDK in state [s]. *)
Definition logged {S : Type} (w : world S) (c : call) (s : S) : world S :=
  {| environ := environ w; calls := calls w ++ [c]; sdk_state := s |}.

(** A call into the SDK: run on the SDK's state, and logged. *)
Definition invoke {S A : Type} (c : call) (f : S -> outcome A * S) : py S A :=
  fun w =>
    let (r, s) := f (sdk_state w) in
    (r, logged w c s).

(** Building a model inside a handler: a failed validation is raised. *)
Definition construct {S A : Type} (v : list verr + A) : py S A :=
  match v with
  | inr a => py_return a
  | inl errs => py_raise (ValidationError errs)
  end.

(** What survives Python's truth test: [if key:] on an [Optional[str]]. *)
Definition truthy (o : option string) : option string :=
  match o with
  | Some s => if bool_str s then Some s else None
  | None => None
  end.

(** ** The handlers of main.py *)

Section Gateway.
Context {S : Type} (sdk : SDK S) (fw : Framework).

(** The imported SDK functions, called with keyword arguments. *)
Definition filter_tools (query : string) (max_tools : Z)
    (filter_type : string) (observee_api_key : string)
  : py S (list pydict) :=
  invoke (call_filter_tools query max_tools filter_type observee_api_key)
         (sdk_filter_tools sdk query max_tools filter_type observee_api_key).

Definition get_tool_info (tool_name : string) (observee_api_key : string)
  : py S (option pydict) :=
  invoke (call_get_tool_info tool_name observee_api_key)
         (sdk_get_tool_info sdk tool_name observee_api_key).

Definition execute_tool (tool_name : string) (tool_input : pydict)
    (observee_api_key : string) : py S pyval :=
  invoke (call_execute_tool tool_name tool_input observee_api_key)
         (sdk_execute_tool sdk tool_name tool_input observee_api_key).

(** Lines 57-68. *)
Definition get_api_key (provided_key : option string) : py S string :=
  match truthy provided_key with
  | Some provided_key => py_return provided_key
  | None =>
      api_key <~ os_getenv "OBSERVEE_API_KEY" ;;
      match truthy api_key with
      | None => py_raise (HTTPException 400 missing_credential_message)
      | Some api_key => py_return api_key
      end
  end.

(** Lines 83-105. *)
Definition filter_tools_endpoint (request : FilterToolsRequest.t)
  : py S FilterToolsResponse.t :=
  try_except
    (api_key <~ get_api_key (FilterToolsRequest.observee_api_key request) ;;
     tools <~ filter_tools (FilterToolsRequest.query request)
                           (FilterToolsRequest.max_tools request)
                           (FilterToolsRequest.filter_type request)
                           api_key ;;
     py_return {| FilterToolsResponse.tools := tools;
                  FilterToolsResponse.count := Z.of_nat (length tools) |})
    (fun e =>
       py_raise (HTTPException 500 ("Error filtering tools: " +:+ str fw e))).

(** Lines 107-123. *)
Definition filter_tools_get_endpoint (query : string) (max_tools : Z)
    (filter_type : string) (observee_api_key : option string)
  : py S FilterToolsResponse.t :=
  request <~ construct (FilterToolsRequest_init (Some query) (Some max_tools)
                          (Some filter_type) observee_api_key) ;;
  filter_tools_endpoint request.

(** Lines 125-144. *)
Definition get_tool_info_endpoint (request : GetToolInfoRequest.t)
  : py S GetToolInfoResponse.t :=
  try_except
    (api_key <~ get_api_key (GetToolInfoRequest.observee_api_key request) ;;
     tool_info <~ get_tool_info (GetToolInfoRequest.tool_name request)
                                api_key ;;
     py_return {| GetToolInfoResponse.tool_info := tool_info;
                  GetToolInfoResponse.found := bool_decide (tool_info <> None) |})
    (fun e =>
       py_raise (HTTPException 500 ("Error getting tool info: " +:+ str fw e))).

(** Lines 146-158. *)
Definition get_tool_info_get_endpoint (tool_name : string)
    (observee_api_key : option string) : py S GetToolInfoResponse.t :=
  request <~ construct (GetToolInfoRequest_init (Some tool_name)
                          observee_api_key) ;;
  get_tool_info_endpoint request.

(** Lines 160-184. *)
Definition execute_tool_endpoint (request : ExecuteToolRequest.t)
  : py S ExecuteToolResponse.t :=
  try_except
    (api_key <~ get_api_key (ExecuteToolRequest.observee_api_key request) ;;
     result <~ execute_tool (ExecuteToolRequest.tool_name request)
                            (ExecuteToolRequest.tool_input request)
                            api_key ;;
     py_return {| ExecuteToolResponse.result := result;
                  ExecuteToolResponse.success := true;
                  ExecuteToolResponse.error := None |})
    (fun e =>
       py_return {| ExecuteToolResponse.result := PyNone;
                    ExecuteToolResponse.success := false;
                    ExecuteToolResponse.error := Some (str fw e) |}).

(** *** The routes, as FastAPI serves them

    A value returned by the handler is sent with status 200; an
    [HTTPException] with its own status and its detail; any other
    exception as a plain 500.  A request that violates the declared
    fields never reaches the handler: FastAPI answers 422 with the
    list of errors. *)

Definition respond {A : Type} (encode : A -> content) (handler : py S A)
  : world S -> response * world S :=
  fun w =>
    match handler w with
    | (Return a, w') => ({| status := 200; body := encode a |}, w')
    | (Raise (HTTPException status_code detail), w') =>
        ({| status := status_code; body := json_detail detail |}, w')
    | (Raise _, w') =>
        ({| status := 500; body := text_plain "Internal Server Error" |}, w')
    end.

Definition unprocessable (part : string) (errs : list verr)
  : world S -> response * world S :=
  fun w => ({| status := 422; body := json_validation (map (located part) errs) |}, w).

Definition POST_filter_tools (query : option string) (max_tools : option Z)
    (filter_type : option string) (observee_api_key : option string)
  : world S -> response * world S :=
  match FilterToolsRequest_init query max_tools filter_type observee_api_key with
  | inl errs => unprocessable "body" errs
  | inr request => respond json_FilterToolsResponse (filter_tools_endpoint request)
  end.

(** The [Query(...)] declarations of lines 109-112 repeat those of the
    model's fields. *)
Definition GET_filter_tools (query : option string) (max_tools : option Z)
    (filter_type : option string) (observee_api_key : option string)
  : world S -> response * world S :=
  let max_tools := default 10 max_tools in
  let filter_type := default "local_embedding" filter_type in
  match query, ge_le "max_tools" 1 100 max_tools with
  | Some query, [] =>
      respond json_FilterToolsResponse
        (filter_tools_get_endpoint query max_tools filter_type observee_api_key)
  | _, errs => unprocessable "query" (required "query" query ++ errs)
  end.

Definition POST_tool_info (tool_name : option string)
    (observee_api_key : option string) : world S -> response * world S :=
  match GetToolInfoRequest_init tool_name observee_api_key with
  | inl errs => unprocessable "body" errs
  | inr request => respond json_GetToolInfoResponse (get_tool_info_endpoint request)
  end.

(** [tool_name] is the path segment that matched the route: the server
    calls the handler only for a segment that is not empty and holds no
    slash ([path_segment] below). *)
Definition GET_tool_info (tool_name : string)
    (observee_api_key : option string) : world S -> response * world S :=
  respond json_GetToolInfoResponse
    (get_tool_info_get_endpoint tool_name observee_api_key).

Definition POST_execute_tool (tool_name : option string)
    (tool_input : option pydict) (observee_api_key : option string)
  : world S -> response * world S :=
  match ExecuteToolRequest_init tool_name tool_input observee_api_key with
  | inl errs => unprocessable "body" errs
  | inr request => respond json_ExecuteToolResponse (execute_tool_endpoint request)
  end.

End Gateway.

(** ** The credential resolver, as the specification words it

    "Given an optional explicit value, return it if present and non-empty;
    otherwise read a single process-wide environment value; if that too is
    empty/absent, signal a client-error ... with a fixed message." *)
Definition process_wide_credential (process_wide : option string)
  : outcome string :=
  match process_wide with
  | Some key =>
      if decide (key = "") then Raise (HTTPException 400 missing_credential_message)
      else Return key
  | None => Raise (HTTPException 400 missing_credential_message)
  end.

Definition credential_resolver (explicit process_wide : option string)
  : outcome string :=
  match explicit with
  | Some key =>
      if decide (key = "") then process_wide_credential process_wide
      else Return key
  | None => process_wide_credential process_wide
  end.

(** ** Test doubles *)

(** A framework in which [str] of an [HTTPException] is "400: detail", as
    recent starlette releases define it (older ones define no [__str__],
    and [str(e)] is then empty).  The rendering of a [ValidationError] is
    a stand-in: no handler ever catches one. *)
Definition starlette : Framework :=
  {| HTTPException_str := fun status_code detail =>
       pretty status_code +:+ ": " +:+ detail;
     ValidationError_str := fun errors =>
       pretty (Z.of_nat (length errors)) +:+ " validation errors" |}.

Definition send_email : pydict :=
  [("name", PyStr "send_email"); ("description", PyStr "Send an email")].

Definition read_inbox : pydict :=
  [("name", PyStr "read_inbox"); ("description", PyStr "List the inbox")].

(** An SDK stub with two tools.  Its state counts the calls it served.
    Searching with an unknown filter type, looking up with the key
    "revoked", and executing "broken_tool" or "silent_tool" raise. *)
Definition stub_sdk : SDK nat :=
  {| sdk_filter_tools := fun query max_tools filter_type key n =>
       (if String.eqb filter_type "local_embedding" || String.eqb filter_type "bm25"
           || String.eqb filter_type "cloud"
        then Return (take (Z.to_nat max_tools) [send_email; read_inbox])
        else Raise (PyException "ValueError" ("Unknown filter type: " +:+ filter_type)),
        Datatypes.S n);
     sdk_get_tool_info := fun tool_name key n =>
       (if String.eqb key "revoked" then Raise (PyException "PermissionError" "api key revoked")
        else if String.eqb tool_name "send_email" then Return (Some send_email)
        else if String.eqb tool_name "read_inbox" then Return (Some read_inbox)
        else Return None,
        Datatypes.S n);
     sdk_execute_tool := fun tool_name tool_input key n =>
       (if String.eqb tool_name "broken_tool" then Raise (PyException "ValueError" "bad input")
        else if String.eqb tool_name "silent_tool" then Raise (PyException "RuntimeError" "")
        else Return (PyDict [("tool", PyStr tool_name); ("input", PyDict tool_input)]),
        Datatypes.S n) |}.

(** A fresh process: the given environment, nothing called yet. *)
Definition boot (env : gmap string string) : world nat :=
  {| environ := env; calls := []; sdk_state := 0%nat |}.

Definition unset : gmap string string := ∅.
Definition configured : gmap string string := {[ "OBSERVEE_API_KEY" := "env-key" ]}.


(** ** The whole application

    The two handlers that take no input, and the table of routes that the
    [@app.get]/[@app.post] decorators build. *)

(** Lines 70-81. *)
Definition root {S : Type} : py S pydict :=
  py_return
    [("message", PyStr "Observee SDK API");
     ("version", PyStr "1.0.0");
     ("endpoints",
      PyDict [("filter_tools", PyStr "/filter-tools");
              ("get_tool_info", PyStr "/tool-info");
              ("execute_tool", PyStr "/execute-tool")])].

(** Lines 186-189. *)
Definition health_check {S : Type} : py S pydict :=
  py_return
    [("status", PyStr "healthy");
     ("message", PyStr "Observee SDK API is running")].

(** A request to one of the seven routes, with the fields it carries.
    The name of [get_tool_info_path] is taken from the path: the request
    matches the route only when the name is a [path_segment]
    ([routable] below). *)
Inductive http_request : Type :=
| get_root
| post_filter_tools (query : option string) (max_tools : option Z)
    (filter_type : option string) (observee_api_key : option string)
| get_filter_tools (query : option string) (max_tools : option Z)
    (filter_type : option string) (observee_api_key : option string)
| post_tool_info (tool_name : option string) (observee_api_key : option string)
| get_tool_info_path (tool_name : string) (observee_api_key : option string)
| post_execute_tool (tool_name : option string) (tool_input : option pydict)
    (observee_api_key : option string)
| get_health.

(** What goes back to the client: a response whose body is one of the
    declared shapes, or the plain dict of a handler without a model. *)
Inductive served : Type :=
| served_response (r : response)
| served_dict (status : Z) (d : pydict).

Definition served_status (r : served) : Z :=
  match r with
  | served_response r => status r
  | served_dict status _ => status
  end.

Section Application.
Context {S : Type} (sdk : SDK S) (fw : Framework).

(** A handler that returns a plain dict, served as [respond] serves the
    others. *)
Definition respond_dict (handler : py S pydict)
  : world S -> served * world S :=
  fun w =>
    match handler w with
    | (Return d, w') => (served_dict 200 d, w')
    | (Raise (HTTPException status_code detail), w') =>
        (served_response {| status := status_code; body := json_detail detail |}, w')
    | (Raise _, w') =>
        (served_response
           {| status := 500; body := text_plain "Internal Server Error" |}, w')
    end.

Definition with_model (route : world S -> response * world S)
  : world S -> served * world S :=
  fun w => let (r, w') := route w in (served_response r, w').

Definition app (request : http_request) : world S -> served * world S :=
  match request with
  | get_root => respond_dict root
  | post_filter_tools query max_tools filter_type key =>
      with_model (POST_filter_tools sdk fw query max_tools filter_type key)
  | get_filter_tools query max_tools filter_type key =>
      with_model (GET_filter_tools sdk fw query max_tools filter_type key)
  | post_tool_info tool_name key =>
      with_model (POST_tool_info sdk fw tool_name key)
  | get_tool_info_path tool_name key =>
      with_model (GET_tool_info sdk fw tool_name key)
  | post_execute_tool tool_name tool_input key =>
      with_model (POST_execute_tool sdk fw tool_name tool_input key)
  | get_health => respond_dict health_check
  end.

(** The handlers never yield while they run (the SDK is called
    synchronously), so a worker serves its requests one after the other. *)
Fixpoint serve (requests : list http_request) (w : world S)
  : list served * world S :=
  match requests with
  | [] => ([], w)
  | request :: requests =>
      let (r, w') := app request w in
      let (rs, w'') := serve requests w' in
      (r :: rs, w'')
  end.

End Application.

(** The operation of the SDK that a route stands for. *)
Definition serves (request : http_request) (c : call) : bool :=
  match request, c with
  | post_filter_tools _ _ _ _, call_filter_tools _ _ _ _ => true
  | get_filter_tools _ _ _ _, call_filter_tools _ _ _ _ => true
  | post_tool_info _ _, call_get_tool_info _ _ => true
  | get_tool_info_path _ _, call_get_tool_info _ _ => true
  | post_execute_tool _ _ _, call_execute_tool _ _ _ => true
  | _, _ => false
  end.

(** The [observee_api_key] argument of a call. *)
Definition call_api_key (c : call) : string :=
  match c with
  | call_filter_tools _ _ _ key => key
  | call_get_tool_info _ key => key
  | call_execute_tool _ _ key => key
  end.

(** A call with a key that is not empty and, for [filter_tools], with
    [max_tools] within the declared bounds. *)
Definition well_formed_call (c : call) : Prop :=
  call_api_key c <> ""
  /\ match c with
     | call_filter_tools _ max_tools _ _ => 1 <= max_tools <= 100
     | _ => True
     end.

(** A path parameter matches one segment of the path: at least one
    character, none of them a slash. *)
Fixpoint has_slash (s : string) : bool :=
  match s with
  | EmptyString => false
  | String a s => Ascii.eqb a (Ascii.ascii_of_nat 47) || has_slash s
  end.

Definition path_segment (s : string) : bool :=
  bool_str s && negb (has_slash s).

(** The requests that a route matches. *)
Definition routable (request : http_request) : bool :=
  match request with
  | get_tool_info_path tool_name _ => path_segment tool_name
  | _ => true
  end.

(** The response model that a route declares. *)
Definition answers (request : http_request) (c : content) : bool :=
  match request, c with
  | post_filter_tools _ _ _ _, json_FilterToolsResponse _ => true
  | get_filter_tools _ _ _ _, json_FilterToolsResponse _ => true
  | post_tool_info _ _, json_GetToolInfoResponse _ => true
  | get_tool_info_path _ _, json_GetToolInfoResponse _ => true
  | post_execute_tool _ _ _, json_ExecuteToolResponse _ => true
  | _, _ => false
  end.

(** An [Optional[str]] that holds a string with at least one character. *)
Definition nonempty_text (o : option string) : Prop :=
  exists s, o = Some s /\ s <> "".

(** * Properties *)

Lemma bool_str_true (s : string) : bool_str s = true <-> s <> "".
Proof.
  unfold bool_str. rewrite negb_true_iff.
  destruct (String.eqb_spec s ""); split; congruence.
Qed.

Lemma truthy_Some (o : option string) (s : string) :
  truthy o = Some s <-> o = Some s /\ s <> "".
Proof.
  destruct o as [k|]; simpl; [|split; [discriminate | intros [? _]; discriminate]].
  destruct (bool_str k) eqn:Hk.
  - apply bool_str_true in Hk. split.
    + intros [= ->]. done.
    + intros [[= ->] _]. done.
  - split; [discriminate|]. intros [[= ->] Hs].
    apply bool_str_true in Hs. congruence.
Qed.

Lemma truthy_None (o : option string) :
  truthy o = None <-> o = None \/ o = Some "".
Proof.
  destruct o as [k|]; simpl; [|split; auto].
  destruct (bool_str k) eqn:Hk.
  - apply bool_str_true in Hk. split; [discriminate|].
    intros [?|[= ->]]; [discriminate | congruence].
  - split; [|done]. intros _. right. f_equal.
    destruct (decide (k = "")) as [|Hne]; [done|].
    apply bool_str_true in Hne. congruence.
Qed.

Lemma truthy_resolver (explicit process_wide : option string) :
  credential_resolver explicit process_wide =
    match truthy explicit with
    | Some key => Return key
    | None =>
        match truthy process_wide with
        | Some key => Return key
        | None => Raise (HTTPException 400 missing_credential_message)
        end
    end.
Proof.
  assert (Hpw : forall o, process_wide_credential o =
            match truthy o with
            | Some key => Return key
            | None => Raise (HTTPException 400 missing_credential_message)
            end).
  { intros [k|]; simpl; [|done].
    destruct (decide (k = "")) as [->|Hne]; [done|].
    apply bool_str_true in Hne. by rewrite Hne. }
  destruct explicit as [k|]; simpl; [|apply Hpw].
  destruct (decide (k = "")) as [->|Hne]; [apply Hpw|].
  apply bool_str_true in Hne. by rewrite Hne.
Qed.

Lemma ge_le_in_range (loc : string) (lo hi v : Z) :
  ge_le loc lo hi v = [] <-> lo <= v <= hi.
Proof.
  unfold ge_le.
  destruct (Z.leb_spec lo v), (Z.leb_spec v hi); simpl; split;
    first [done | lia | discriminate].
Qed.


Lemma FilterToolsRequest_init_valid
    (query : string) (max_tools : option Z) (filter_type key : option string) :
  1 <= default 10 max_tools <= 100 ->
  FilterToolsRequest_init (Some query) max_tools filter_type key =
    inr {| FilterToolsRequest.query := query;
           FilterToolsRequest.max_tools := default 10 max_tools;
           FilterToolsRequest.filter_type := default "local_embedding" filter_type;
           FilterToolsRequest.observee_api_key := key |}.
Proof.
  intros Hin. unfold FilterToolsRequest_init.
  apply (ge_le_in_range "max_tools") in Hin. by rewrite Hin.
Qed.

Lemma FilterToolsRequest_init_inr
    (query : option string) (max_tools : option Z)
    (filter_type key : option string) (request : FilterToolsRequest.t) :
  FilterToolsRequest_init query max_tools filter_type key = inr request ->
  query = Some (FilterToolsRequest.query request)
  /\ FilterToolsRequest.max_tools request = default 10 max_tools
  /\ 1 <= FilterToolsRequest.max_tools request <= 100
  /\ FilterToolsRequest.filter_type request
     = default "local_embedding" filter_type
  /\ FilterToolsRequest.observee_api_key request = key.
Proof.
  unfold FilterToolsRequest_init.
  destruct query as [query|];
    destruct (ge_le "max_tools" 1 100 (default 10 max_tools)) eqn:Hb;
    try discriminate.
  intros [= <-]. simpl. apply ge_le_in_range in Hb. done.
Qed.

Lemma FilterToolsRequest_init_inl
    (query : option string) (max_tools : option Z)
    (filter_type key : option string) (errs : list verr) :
  FilterToolsRequest_init query max_tools filter_type key = inl errs ->
  errs <> []
  /\ (query = None \/ ~ (1 <= default 10 max_tools <= 100))
  /\ forall filter_type' key',
       FilterToolsRequest_init query max_tools filter_type' key' = inl errs.
Proof.
  unfold FilterToolsRequest_init.
  destruct query as [query|];
    destruct (ge_le "max_tools" 1 100 (default 10 max_tools)) eqn:Hb;
    try discriminate; intros [= <-].
  - split; [done|]. split; [|done]. right. intros Hin.
    apply (ge_le_in_range "max_tools") in Hin. congruence.
  - split; [done|]. split; [by left | done].
  - split; [done|]. split; [by left | done].
Qed.

Lemma located_part_neq (errs : list verr) :
  errs <> [] -> map (located "query") errs <> map (located "body") errs.
Proof.
  destruct errs as [|[] errs]; [done| | |]; intros _; simpl; congruence.
Qed.

Section Properties.
Context {S : Type} (sdk : SDK S) (fw : Framework).

Implicit Types (w : world S) (e : exn).

(** [get_api_key] only reads: the world it leaves is the one it found,
    and what it returns or raises is the specified resolution. *)
Lemma get_api_key_run (provided_key : option string) w :
  get_api_key provided_key w =
    (credential_resolver provided_key (environ w !! "OBSERVEE_API_KEY"), w).
Proof.
  rewrite truthy_resolver. unfold get_api_key.
  destruct (truthy provided_key); [done|].
  unfold py_bind, os_getenv.
  by destruct (truthy (environ w !! "OBSERVEE_API_KEY")).
Qed.

Lemma get_api_key_world (provided_key : option string) w :
  snd (get_api_key provided_key w) = w.
Proof. by rewrite get_api_key_run. Qed.

Lemma get_api_key_raises (provided_key : option string) w e :
  fst (get_api_key provided_key w) = Raise e ->
  e = HTTPException 400 missing_credential_message.
Proof.
  rewrite get_api_key_run, truthy_resolver. simpl.
  destruct (truthy provided_key); [discriminate|].
  destruct (truthy _); [discriminate|]. by intros [= <-].
Qed.

(** What each handler does, by the outcome of the resolution and of the
    SDK call. *)
Lemma filter_tools_endpoint_run (request : FilterToolsRequest.t) w :
  filter_tools_endpoint sdk fw request w =
    match fst (get_api_key (FilterToolsRequest.observee_api_key request) w) with
    | Raise e =>
        (Raise (HTTPException 500 ("Error filtering tools: " +:+ str fw e)), w)
    | Return api_key =>
        let c := call_filter_tools (FilterToolsRequest.query request)
                   (FilterToolsRequest.max_tools request)
                   (FilterToolsRequest.filter_type request) api_key in
        match sdk_filter_tools sdk (FilterToolsRequest.query request)
                (FilterToolsRequest.max_tools request)
                (FilterToolsRequest.filter_type request) api_key (sdk_state w) with
        | (Return tools, s) =>
            (Return {| FilterToolsResponse.tools := tools;
                       FilterToolsResponse.count := Z.of_nat (length tools) |},
             logged w c s)
        | (Raise e, s) =>
            (Raise (HTTPException 500 ("Error filtering tools: " +:+ str fw e)),
             logged w c s)
        end
    end.
Proof.
  unfold filter_tools_endpoint, try_except, py_bind.
  rewrite get_api_key_run. simpl.
  destruct (credential_resolver _ _); [|done].
  unfold filter_tools, invoke.
  by destruct (sdk_filter_tools _ _ _ _ _ _) as [[tools|e] s].
Qed.

Lemma get_tool_info_endpoint_run (request : GetToolInfoRequest.t) w :
  get_tool_info_endpoint sdk fw request w =
    match fst (get_api_key (GetToolInfoRequest.observee_api_key request) w) with
    | Raise e =>
        (Raise (HTTPException 500 ("Error getting tool info: " +:+ str fw e)), w)
    | Return api_key =>
        let c := call_get_tool_info (GetToolInfoRequest.tool_name request) api_key in
        match sdk_get_tool_info sdk (GetToolInfoRequest.tool_name request)
                api_key (sdk_state w) with
        | (Return tool_info, s) =>
            (Return {| GetToolInfoResponse.tool_info := tool_info;
                       GetToolInfoResponse.found := bool_decide (tool_info <> None) |},
             logged w c s)
        | (Raise e, s) =>
            (Raise (HTTPException 500 ("Error getting tool info: " +:+ str fw e)),
             logged w c s)
        end
    end.
Proof.
  unfold get_tool_info_endpoint, try_except, py_bind.
  rewrite get_api_key_run. simpl.
  destruct (credential_resolver _ _); [|done].
  unfold get_tool_info, invoke.
  by destruct (sdk_get_tool_info _ _ _ _) as [[tool_info|e] s].
Qed.

Lemma execute_tool_endpoint_run (request : ExecuteToolRequest.t) w :
  execute_tool_endpoint sdk fw request w =
    match fst (get_api_key (ExecuteToolRequest.observee_api_key request) w) with
    | Raise e =>
        (Return {| ExecuteToolResponse.result := PyNone;
                   ExecuteToolResponse.success := false;
                   ExecuteToolResponse.error := Some (str fw e) |}, w)
    | Return api_key =>
        let c := call_execute_tool (ExecuteToolRequest.tool_name request)
                   (ExecuteToolRequest.tool_input request) api_key in
        match sdk_execute_tool sdk (ExecuteToolRequest.tool_name request)
                (ExecuteToolRequest.tool_input request) api_key (sdk_state w) with
        | (Return result, s) =>
            (Return {| ExecuteToolResponse.result := result;
                       ExecuteToolResponse.success := true;
                       ExecuteToolResponse.error := None |},
             logged w c s)
        | (Raise e, s) =>
            (Return {| ExecuteToolResponse.result := PyNone;
                       ExecuteToolResponse.success := false;
                       ExecuteToolResponse.error := Some (str fw e) |},
             logged w c s)
        end
    end.
Proof.
  unfold execute_tool_endpoint, try_except, py_bind.
  rewrite get_api_key_run. simpl.
  destruct (credential_resolver _ _); [|done].
  unfold execute_tool, invoke.
  by destruct (sdk_execute_tool _ _ _ _ _) as [[result|e] s].
Qed.

Lemma credential_resolver_explicit (key : string) (process_wide : option string) :
  key <> "" -> credential_resolver (Some key) process_wide = Return key.
Proof. intros Hne. simpl. by destruct (decide (key = "")). Qed.

Lemma credential_resolver_fallback (explicit : option string) (key : string) :
  explicit = None \/ explicit = Some "" -> key <> "" ->
  credential_resolver explicit (Some key) = Return key.
Proof.
  intros [-> | ->] Hne; simpl; by destruct (decide (key = "")).
Qed.

Lemma credential_resolver_missing (explicit process_wide : option string) :
  explicit = None \/ explicit = Some "" ->
  process_wide = None \/ process_wide = Some "" ->
  credential_resolver explicit process_wide =
    Raise (HTTPException 400 missing_credential_message).
Proof. by intros [-> | ->] [-> | ->]. Qed.

(** C6: the credential resolver [get_api_key] is a pure function of its
    argument and of the process-wide value [OBSERVEE_API_KEY]: it leaves
    the world as it found it and yields exactly what the specified
    resolver yields.  An explicit non-empty value is returned whatever the
    environment holds, and it is the key each of the three handlers passes
    to the SDK; failing that, a non-empty process-wide value is returned;
    failing that too, the 400 with the fixed message is raised. *)
Theorem credential_resolution (provided_key : option string) w :
  get_api_key provided_key w =
    (credential_resolver provided_key (environ w !! "OBSERVEE_API_KEY"), w)
  /\ (forall key, provided_key = Some key -> key <> "" ->
        get_api_key provided_key w = (Return key, w)
        /\ (forall query max_tools filter_type,
              calls (snd (filter_tools_endpoint sdk fw
                {| FilterToolsRequest.query := query;
                   FilterToolsRequest.max_tools := max_tools;
                   FilterToolsRequest.filter_type := filter_type;
                   FilterToolsRequest.observee_api_key := provided_key |} w))
              = calls w ++ [call_filter_tools query max_tools filter_type key])
        /\ (forall tool_name,
              calls (snd (get_tool_info_endpoint sdk fw
                {| GetToolInfoRequest.tool_name := tool_name;
                   GetToolInfoRequest.observee_api_key := provided_key |} w))
              = calls w ++ [call_get_tool_info tool_name key])
        /\ (forall tool_name tool_input,
              calls (snd (execute_tool_endpoint sdk fw
                {| ExecuteToolRequest.tool_name := tool_name;
                   ExecuteToolRequest.tool_input := tool_input;
                   ExecuteToolRequest.observee_api_key := provided_key |} w))
              = calls w ++ [call_execute_tool tool_name tool_input key]))
  /\ (forall key, provided_key = None \/ provided_key = Some "" ->
        environ w !! "OBSERVEE_API_KEY" = Some key -> key <> "" ->
        get_api_key provided_key w = (Return key, w))
  /\ (provided_key = None \/ provided_key = Some "" ->
      environ w !! "OBSERVEE_API_KEY" = None
        \/ environ w !! "OBSERVEE_API_KEY" = Some "" ->
      get_api_key provided_key w =
        (Raise (HTTPException 400 missing_credential_message), w)
      /\ is_client_error 400 = true).
Proof.
  split; [apply get_api_key_run|]. split; [|split].
  - intros key -> Hne.
    assert (Hk : forall w', get_api_key (S:=S) (Some key) w' = (Return key, w')).
    { intros w'. by rewrite get_api_key_run, credential_resolver_explicit. }
    split; [apply Hk|]. split; [|split]; intros.
    + rewrite filter_tools_endpoint_run. simpl. rewrite Hk. simpl.
      by destruct (sdk_filter_tools _ _ _ _ _ _) as [[?|?] ?].
    + rewrite get_tool_info_endpoint_run. simpl. rewrite Hk. simpl.
      by destruct (sdk_get_tool_info _ _ _ _) as [[?|?] ?].
    + rewrite execute_tool_endpoint_run. simpl. rewrite Hk. simpl.
      by destruct (sdk_execute_tool _ _ _ _ _) as [[?|?] ?].
  - intros key Hpk Henv Hne.
    by rewrite get_api_key_run, Henv, credential_resolver_fallback.
  - intros Hpk Henv. split; [|done].
    by rewrite get_api_key_run, credential_resolver_missing.
Qed.

(** C1: a request without a credential, served by a process whose
    environment has no [OBSERVEE_API_KEY], does not reach the SDK, but the
    400 that [get_api_key] raises is not what the client receives: the
    [except Exception] clause of the handler catches it.  POST /filter-tools
    and POST /tool-info answer 500, and POST /execute-tool answers 200 with
    [success] false. *)
Theorem missing_credential_is_caught (s : S) :
  let w := {| environ := ∅; calls := []; sdk_state := s |} in
  let e := HTTPException 400 missing_credential_message in
  POST_filter_tools sdk fw (Some "send email") None None None w =
    ({| status := 500;
        body := json_detail ("Error filtering tools: " +:+ str fw e) |}, w)
  /\ POST_tool_info sdk fw (Some "send_email") None w =
    ({| status := 500;
        body := json_detail ("Error getting tool info: " +:+ str fw e) |}, w)
  /\ POST_execute_tool sdk fw (Some "send_email") (Some []) None w =
    ({| status := 200;
        body := json_ExecuteToolResponse
                  {| ExecuteToolResponse.result := PyNone;
                     ExecuteToolResponse.success := false;
                     ExecuteToolResponse.error := Some (str fw e) |} |}, w)
  /\ is_client_error 500 = false
  /\ is_client_error 200 = false.
Proof. repeat split. Qed.

(** C10: when [get_api_key] raises inside POST /filter-tools or
    POST /tool-info, the exception is the 400 with the fixed message, the
    handler's [except Exception] clause catches it, and the response is a
    500 whose detail is the handler's prefix followed by [str(e)]: a
    server error, not the resolver's client error.  The SDK is not
    called. *)
Theorem missing_credential_becomes_server_error
    (provided_key : option string) w e :
  fst (get_api_key provided_key w) = Raise e ->
  e = HTTPException 400 missing_credential_message
  /\ (forall query max_tools filter_type,
        respond json_FilterToolsResponse
          (filter_tools_endpoint sdk fw
             {| FilterToolsRequest.query := query;
                FilterToolsRequest.max_tools := max_tools;
                FilterToolsRequest.filter_type := filter_type;
                FilterToolsRequest.observee_api_key := provided_key |}) w
        = ({| status := 500;
              body := json_detail ("Error filtering tools: " +:+ str fw e) |}, w))
  /\ (forall tool_name,
        respond json_GetToolInfoResponse
          (get_tool_info_endpoint sdk fw
             {| GetToolInfoRequest.tool_name := tool_name;
                GetToolInfoRequest.observee_api_key := provided_key |}) w
        = ({| status := 500;
              body := json_detail ("Error getting tool info: " +:+ str fw e) |}, w))
  /\ is_server_error 500 = true
  /\ is_client_error 500 = false.
Proof.
  intros He. split; [by eapply get_api_key_raises|].
  split; [|split; [|done]]; intros; unfold respond.
  - rewrite filter_tools_endpoint_run. simpl. by rewrite He.
  - rewrite get_tool_info_endpoint_run. simpl. by rewrite He.
Qed.

(** C2: whatever happens inside the handler of POST /execute-tool, the
    response has status 200.  A failure, be it of the credential resolution
    or of the SDK call, is reported in the body with [success] false and the
    text of the exception.  A failure of the SDK call in the two other
    operations is answered with status 500 and a detail. *)
Theorem execute_tool_reports_in_band :
  (forall (request : ExecuteToolRequest.t) w,
      exists r,
        fst (respond json_ExecuteToolResponse
               (execute_tool_endpoint sdk fw request) w)
          = {| status := 200; body := json_ExecuteToolResponse r |}
        /\ is_success 200 = true
        /\ (forall e,
              fst (get_api_key (ExecuteToolRequest.observee_api_key request) w)
                = Raise e ->
              ExecuteToolResponse.success r = false
              /\ ExecuteToolResponse.error r = Some (str fw e))
        /\ (forall api_key e s,
              fst (get_api_key (ExecuteToolRequest.observee_api_key request) w)
                = Return api_key ->
              sdk_execute_tool sdk (ExecuteToolRequest.tool_name request)
                (ExecuteToolRequest.tool_input request) api_key (sdk_state w)
                = (Raise e, s) ->
              ExecuteToolResponse.success r = false
              /\ ExecuteToolResponse.error r = Some (str fw e)))
  /\ (forall (request : FilterToolsRequest.t) w api_key e s,
        fst (get_api_key (FilterToolsRequest.observee_api_key request) w)
          = Return api_key ->
        sdk_filter_tools sdk (FilterToolsRequest.query request)
          (FilterToolsRequest.max_tools request)
          (FilterToolsRequest.filter_type request) api_key (sdk_state w)
          = (Raise e, s) ->
        exists detail,
          fst (respond json_FilterToolsResponse
                 (filter_tools_endpoint sdk fw request) w)
            = {| status := 500; body := json_detail detail |})
  /\ (forall (request : GetToolInfoRequest.t) w api_key e s,
        fst (get_api_key (GetToolInfoRequest.observee_api_key request) w)
          = Return api_key ->
        sdk_get_tool_info sdk (GetToolInfoRequest.tool_name request)
          api_key (sdk_state w) = (Raise e, s) ->
        exists detail,
          fst (respond json_GetToolInfoResponse
                 (get_tool_info_endpoint sdk fw request) w)
            = {| status := 500; body := json_detail detail |})
  /\ is_server_error 500 = true.
Proof.
  split; [|split; [|split; [|done]]].
  - intros request w. unfold respond.
    rewrite execute_tool_endpoint_run.
    destruct (fst (get_api_key _ w)) as [api_key|e0] eqn:Hkey.
    + simpl.
      destruct (sdk_execute_tool _ _ _ _ _) as [[result|e0] s0] eqn:Hsdk;
        eexists; (split; [reflexivity|]); (split; [done|]);
        (split; [intros; discriminate|]); intros k e s [= <-] Hs; simpl.
      * rewrite Hsdk in Hs. discriminate.
      * rewrite Hsdk in Hs. by injection Hs as -> _.
    + eexists. split; [reflexivity|]. split; [done|].
      split; intros; simplify_eq; done.
  - intros request w api_key e s Hkey Hsdk. unfold respond.
    rewrite filter_tools_endpoint_run, Hkey. simpl. rewrite Hsdk.
    by eexists.
  - intros request w api_key e s Hkey Hsdk. unfold respond.
    rewrite get_tool_info_endpoint_run, Hkey. simpl. rewrite Hsdk.
    by eexists.
Qed.

(** C3 (amended): when the credential resolves and the SDK's
    [execute_tool] raises [e], the response has status 200, [success] is
    false, [result] is null and [error] is present and equal to [str(e)];
    it has at least one character whenever [str(e)] has.  The SDK was
    called once. *)
Theorem execute_tool_failure_response
    (request : ExecuteToolRequest.t) w (api_key : string) e (s : S) :
  fst (get_api_key (ExecuteToolRequest.observee_api_key request) w)
    = Return api_key ->
  sdk_execute_tool sdk (ExecuteToolRequest.tool_name request)
    (ExecuteToolRequest.tool_input request) api_key (sdk_state w)
    = (Raise e, s) ->
  respond json_ExecuteToolResponse (execute_tool_endpoint sdk fw request) w
    = ({| status := 200;
          body := json_ExecuteToolResponse
                    {| ExecuteToolResponse.result := PyNone;
                       ExecuteToolResponse.success := false;
                       ExecuteToolResponse.error := Some (str fw e) |} |},
       logged w (call_execute_tool (ExecuteToolRequest.tool_name request)
                   (ExecuteToolRequest.tool_input request) api_key) s)
  /\ is_success 200 = true
  /\ (str fw e <> "" -> nonempty_text (Some (str fw e))).
Proof.
  intros Hkey Hsdk. unfold respond.
  rewrite execute_tool_endpoint_run, Hkey. simpl. rewrite Hsdk.
  split; [done|]. split; [done|]. intros Hne. by exists (str fw e).
Qed.

(** C4: when the credential resolves and the SDK's [filter_tools] or
    [get_tool_info] raises [e], the response has status 500 and its detail
    is the handler's prefix followed by [str(e)].  The SDK was called
    exactly once, and the body holds nothing but the detail. *)
Theorem search_and_lookup_failure_response :
  (forall (request : FilterToolsRequest.t) w (api_key : string) e (s : S),
      fst (get_api_key (FilterToolsRequest.observee_api_key request) w)
        = Return api_key ->
      sdk_filter_tools sdk (FilterToolsRequest.query request)
        (FilterToolsRequest.max_tools request)
        (FilterToolsRequest.filter_type request) api_key (sdk_state w)
        = (Raise e, s) ->
      respond json_FilterToolsResponse (filter_tools_endpoint sdk fw request) w
        = ({| status := 500;
              body := json_detail ("Error filtering tools: " +:+ str fw e) |},
           logged w (call_filter_tools (FilterToolsRequest.query request)
                       (FilterToolsRequest.max_tools request)
                       (FilterToolsRequest.filter_type request) api_key) s))
  /\ (forall (request : GetToolInfoRequest.t) w (api_key : string) e (s : S),
        fst (get_api_key (GetToolInfoRequest.observee_api_key request) w)
          = Return api_key ->
        sdk_get_tool_info sdk (GetToolInfoRequest.tool_name request)
          api_key (sdk_state w) = (Raise e, s) ->
        respond json_GetToolInfoResponse (get_tool_info_endpoint sdk fw request) w
          = ({| status := 500;
                body := json_detail ("Error getting tool info: " +:+ str fw e) |},
             logged w (call_get_tool_info (GetToolInfoRequest.tool_name request)
                         api_key) s))
  /\ is_server_error 500 = true.
Proof.
  split; [|split; [|done]]; intros request w api_key e s Hkey Hsdk;
    unfold respond.
  - rewrite filter_tools_endpoint_run, Hkey. simpl. by rewrite Hsdk.
  - rewrite get_tool_info_endpoint_run, Hkey. simpl. by rewrite Hsdk.
Qed.

(** C7: when the credential resolves and the SDK's [get_tool_info] returns,
    the response has status 200 and carries what the SDK returned; [found]
    is true if and only if [tool_info] is not null, so a lookup that finds
    nothing gives [found] false and [tool_info] null, not an error. *)
Theorem tool_info_found_iff
    (request : GetToolInfoRequest.t) w (api_key : string)
    (tool_info : option pydict) (s : S) :
  fst (get_api_key (GetToolInfoRequest.observee_api_key request) w)
    = Return api_key ->
  sdk_get_tool_info sdk (GetToolInfoRequest.tool_name request)
    api_key (sdk_state w) = (Return tool_info, s) ->
  exists r,
    respond json_GetToolInfoResponse (get_tool_info_endpoint sdk fw request) w
      = ({| status := 200; body := json_GetToolInfoResponse r |},
         logged w (call_get_tool_info (GetToolInfoRequest.tool_name request)
                     api_key) s)
    /\ GetToolInfoResponse.tool_info r = tool_info
    /\ (GetToolInfoResponse.found r = true
        <-> GetToolInfoResponse.tool_info r <> None)
    /\ (tool_info = None ->
        r = {| GetToolInfoResponse.tool_info := None;
               GetToolInfoResponse.found := false |}).
Proof.
  intros Hkey Hsdk. unfold respond.
  rewrite get_tool_info_endpoint_run, Hkey. simpl. rewrite Hsdk.
  eexists. split; [reflexivity|]. simpl. split; [done|]. split.
  - apply bool_decide_eq_true.
  - by intros ->.
Qed.

(** C8: when the credential resolves and the SDK's [filter_tools] returns a
    sequence, the response has status 200, its [tools] is that sequence
    unchanged and its [count] is the length of the sequence. *)
Theorem filter_tools_count
    (request : FilterToolsRequest.t) w (api_key : string)
    (tools : list pydict) (s : S) :
  fst (get_api_key (FilterToolsRequest.observee_api_key request) w)
    = Return api_key ->
  sdk_filter_tools sdk (FilterToolsRequest.query request)
    (FilterToolsRequest.max_tools request)
    (FilterToolsRequest.filter_type request) api_key (sdk_state w)
    = (Return tools, s) ->
  exists r,
    respond json_FilterToolsResponse (filter_tools_endpoint sdk fw request) w
      = ({| status := 200; body := json_FilterToolsResponse r |},
         logged w (call_filter_tools (FilterToolsRequest.query request)
                     (FilterToolsRequest.max_tools request)
                     (FilterToolsRequest.filter_type request) api_key) s)
    /\ FilterToolsResponse.tools r = tools
    /\ FilterToolsResponse.count r
       = Z.of_nat (length (FilterToolsResponse.tools r)).
Proof.
  intros Hkey Hsdk. unfold respond.
  rewrite filter_tools_endpoint_run, Hkey. simpl. rewrite Hsdk.
  by eexists.
Qed.


(** C9 (amended): on parameter values that pass validation the GET
    bindings are aliases of the POST ones.  From the same values
    GET /filter-tools and POST /filter-tools build the same
    [FilterToolsRequest] and answer with the result of the one handler on
    it; so do GET /tool-info/{tool_name} and POST /tool-info with
    [GetToolInfoRequest], for every name that is a path segment.  On
    values that do not pass, both answer 422 with the same errors, located
    in the query string by the one and in the body by the other, so that
    the two responses differ. *)
Theorem get_bindings_are_aliases w :
  (forall query max_tools filter_type key request,
      FilterToolsRequest_init query max_tools filter_type key = inr request ->
      GET_filter_tools sdk fw query max_tools filter_type key w
        = respond json_FilterToolsResponse
            (filter_tools_endpoint sdk fw request) w
      /\ POST_filter_tools sdk fw query max_tools filter_type key w
        = respond json_FilterToolsResponse
            (filter_tools_endpoint sdk fw request) w
      /\ GET_filter_tools sdk fw query max_tools filter_type key w
        = POST_filter_tools sdk fw query max_tools filter_type key w)
  /\ (forall query max_tools filter_type key errs,
        FilterToolsRequest_init query max_tools filter_type key = inl errs ->
        GET_filter_tools sdk fw query max_tools filter_type key w
          = unprocessable "query" errs w
        /\ POST_filter_tools sdk fw query max_tools filter_type key w
          = unprocessable "body" errs w
        /\ GET_filter_tools sdk fw query max_tools filter_type key w
          <> POST_filter_tools sdk fw query max_tools filter_type key w)
  /\ (forall query max_tools filter_type key,
        1 <= max_tools <= 100 ->
        filter_tools_get_endpoint sdk fw query max_tools filter_type key w
          = filter_tools_endpoint sdk fw
              {| FilterToolsRequest.query := query;
                 FilterToolsRequest.max_tools := max_tools;
                 FilterToolsRequest.filter_type := filter_type;
                 FilterToolsRequest.observee_api_key := key |} w)
  /\ (forall tool_name key,
        get_tool_info_get_endpoint sdk fw tool_name key w
          = get_tool_info_endpoint sdk fw
              {| GetToolInfoRequest.tool_name := tool_name;
                 GetToolInfoRequest.observee_api_key := key |} w)
  /\ (forall tool_name key,
        path_segment tool_name = true ->
        GET_tool_info sdk fw tool_name key w
          = respond json_GetToolInfoResponse
              (get_tool_info_endpoint sdk fw
                 {| GetToolInfoRequest.tool_name := tool_name;
                    GetToolInfoRequest.observee_api_key := key |}) w
        /\ GET_tool_info sdk fw tool_name key w
          = POST_tool_info sdk fw (Some tool_name) key w).
Proof.
  assert (Hget : forall query max_tools filter_type key,
             1 <= max_tools <= 100 ->
             filter_tools_get_endpoint sdk fw query max_tools filter_type key
             = py_bind (py_return
                  {| FilterToolsRequest.query := query;
                     FilterToolsRequest.max_tools := max_tools;
                     FilterToolsRequest.filter_type := filter_type;
                     FilterToolsRequest.observee_api_key := key |})
                 (filter_tools_endpoint sdk fw)).
  { intros query max_tools filter_type key Hin.
    unfold filter_tools_get_endpoint.
    by rewrite (FilterToolsRequest_init_valid query (Some max_tools)
                  (Some filter_type) key Hin). }
  assert (Hroutes : forall query max_tools filter_type key,
             match FilterToolsRequest_init query max_tools filter_type key with
             | inr request =>
                 GET_filter_tools sdk fw query max_tools filter_type key w
                   = respond json_FilterToolsResponse
                       (filter_tools_endpoint sdk fw request) w
                 /\ POST_filter_tools sdk fw query max_tools filter_type key w
                   = respond json_FilterToolsResponse
                       (filter_tools_endpoint sdk fw request) w
             | inl errs =>
                 GET_filter_tools sdk fw query max_tools filter_type key w
                   = unprocessable "query" errs w
                 /\ POST_filter_tools sdk fw query max_tools filter_type key w
                   = unprocessable "body" errs w
             end).
  { intros query max_tools filter_type key.
    unfold POST_filter_tools, GET_filter_tools.
    destruct query as [query|].
    - destruct (decide (1 <= default 10 max_tools <= 100)) as [Hin|Hout].
      + rewrite (FilterToolsRequest_init_valid _ _ _ _ Hin).
        pose proof Hin as Hb. apply (ge_le_in_range "max_tools") in Hb.
        rewrite Hb, (Hget _ _ _ _ Hin). done.
      + unfold FilterToolsRequest_init.
        destruct (ge_le "max_tools" 1 100 (default 10 max_tools)) eqn:Hb; [|done].
        apply ge_le_in_range in Hb. lia.
    - unfold FilterToolsRequest_init.
      by destruct (ge_le "max_tools" 1 100 (default 10 max_tools)). }
  split; [|split; [|split; [|split]]].
  - intros query max_tools filter_type key request Hinit.
    specialize (Hroutes query max_tools filter_type key).
    rewrite Hinit in Hroutes. destruct Hroutes as [Hg Hp].
    split; [done|]. split; [done|]. by rewrite Hg, Hp.
  - intros query max_tools filter_type key errs Hinit.
    specialize (Hroutes query max_tools filter_type key).
    rewrite Hinit in Hroutes. destruct Hroutes as [Hg Hp].
    split; [done|]. split; [done|]. rewrite Hg, Hp.
    apply FilterToolsRequest_init_inl in Hinit as (Hne & _).
    unfold unprocessable. intros [= Heq].
    by apply located_part_neq in Hne.
  - intros query max_tools filter_type key Hin. by rewrite Hget.
  - done.
  - done.
Qed.

End Properties.

(** * The properties on the stub SDK *)

(** C6 at three requests: an explicit key wins over the configured one and
    reaches the SDK; without one the configured key is used; with neither
    the 400 is raised. *)
Lemma credential_resolution_witness :
  (get_api_key (Some "request-key") (boot configured)
     = (Return "request-key", boot configured)
   /\ calls (snd (filter_tools_endpoint stub_sdk starlette
        {| FilterToolsRequest.query := "send email";
           FilterToolsRequest.max_tools := 5;
           FilterToolsRequest.filter_type := "bm25";
           FilterToolsRequest.observee_api_key := Some "request-key" |}
        (boot configured)))
      = [] ++ [call_filter_tools "send email" 5 "bm25" "request-key"])
  /\ get_api_key (Some "") (boot configured) = (Return "env-key", boot configured)
  /\ get_api_key None (boot unset)
     = (Raise (HTTPException 400 missing_credential_message), boot unset).
Proof.
  split; [|split].
  - destruct (credential_resolution stub_sdk starlette (Some "request-key")
                (boot configured)) as (_ & Hexplicit & _).
    destruct (Hexplicit "request-key") as (Hkey & Hfilter & _);
      [reflexivity | discriminate |].
    split; [exact Hkey | exact (Hfilter "send email" 5 "bm25")].
  - destruct (credential_resolution stub_sdk starlette (Some "")
                (boot configured)) as (_ & _ & Hfallback & _).
    apply Hfallback; [by right | reflexivity | discriminate].
  - destruct (credential_resolution stub_sdk starlette None (boot unset))
      as (_ & _ & _ & Hmissing).
    apply Hmissing; by left.
Defined.

(** C10 at a request without a key, in a process without the variable. *)
Lemma missing_credential_becomes_server_error_witness :
  respond json_FilterToolsResponse
    (filter_tools_endpoint stub_sdk starlette
       {| FilterToolsRequest.query := "send email";
          FilterToolsRequest.max_tools := 10;
          FilterToolsRequest.filter_type := "local_embedding";
          FilterToolsRequest.observee_api_key := None |}) (boot unset)
  = ({| status := 500;
        body := json_detail
          ("Error filtering tools: "
           +:+ str starlette (HTTPException 400 missing_credential_message)) |},
     boot unset).
Proof.
  destruct (missing_credential_becomes_server_error stub_sdk starlette None
              (boot unset) (HTTPException 400 missing_credential_message))
    as (_ & Hfilter & _); [reflexivity|].
  exact (Hfilter "send email" 10 "local_embedding").
Defined.

(** C2 at a failing execution, a failing search and a failing lookup. *)
Lemma execute_tool_reports_in_band_witness :
  (exists r,
      fst (respond json_ExecuteToolResponse
             (execute_tool_endpoint stub_sdk starlette
                {| ExecuteToolRequest.tool_name := "broken_tool";
                   ExecuteToolRequest.tool_input := [];
                   ExecuteToolRequest.observee_api_key := None |})
             (boot configured))
        = {| status := 200; body := json_ExecuteToolResponse r |}
      /\ ExecuteToolResponse.success r = false
      /\ ExecuteToolResponse.error r = Some "bad input")
  /\ (exists detail,
        fst (respond json_FilterToolsResponse
               (filter_tools_endpoint stub_sdk starlette
                  {| FilterToolsRequest.query := "send email";
                     FilterToolsRequest.max_tools := 5;
                     FilterToolsRequest.filter_type := "fuzzy";
                     FilterToolsRequest.observee_api_key := None |})
               (boot configured))
          = {| status := 500; body := json_detail detail |})
  /\ (exists detail,
        fst (respond json_GetToolInfoResponse
               (get_tool_info_endpoint stub_sdk starlette
                  {| GetToolInfoRequest.tool_name := "send_email";
                     GetToolInfoRequest.observee_api_key := Some "revoked" |})
               (boot configured))
          = {| status := 500; body := json_detail detail |}).
Proof.
  destruct (execute_tool_reports_in_band stub_sdk starlette)
    as (Hexecute & Hfilter & Hinfo & _).
  split; [|split].
  - destruct (Hexecute
                {| ExecuteToolRequest.tool_name := "broken_tool";
                   ExecuteToolRequest.tool_input := [];
                   ExecuteToolRequest.observee_api_key := None |}
                (boot configured)) as (r & Hr & _ & _ & Hsdk).
    exists r. split; [exact Hr|].
    exact (Hsdk "env-key" (PyException "ValueError" "bad input") 1%nat
             eq_refl eq_refl).
  - exact (Hfilter
             {| FilterToolsRequest.query := "send email";
                FilterToolsRequest.max_tools := 5;
                FilterToolsRequest.filter_type := "fuzzy";
                FilterToolsRequest.observee_api_key := None |}
             (boot configured) "env-key"
             (PyException "ValueError" "Unknown filter type: fuzzy") 1%nat
             eq_refl eq_refl).
  - exact (Hinfo
             {| GetToolInfoRequest.tool_name := "send_email";
                GetToolInfoRequest.observee_api_key := Some "revoked" |}
             (boot configured) "revoked"
             (PyException "PermissionError" "api key revoked") 1%nat
             eq_refl eq_refl).
Defined.

(** C3 at the scenario of the specification: [execute_tool] raises
    [ValueError("bad input")]. *)
Lemma execute_tool_failure_response_witness :
  respond json_ExecuteToolResponse
    (execute_tool_endpoint stub_sdk starlette
       {| ExecuteToolRequest.tool_name := "broken_tool";
          ExecuteToolRequest.tool_input := [];
          ExecuteToolRequest.observee_api_key := None |}) (boot configured)
  = ({| status := 200;
        body := json_ExecuteToolResponse
                  {| ExecuteToolResponse.result := PyNone;
                     ExecuteToolResponse.success := false;
                     ExecuteToolResponse.error := Some "bad input" |} |},
     logged (boot configured) (call_execute_tool "broken_tool" [] "env-key") 1%nat)
  /\ nonempty_text (Some "bad input").
Proof.
  destruct (execute_tool_failure_response stub_sdk starlette
              {| ExecuteToolRequest.tool_name := "broken_tool";
                 ExecuteToolRequest.tool_input := [];
                 ExecuteToolRequest.observee_api_key := None |}
              (boot configured) "env-key"
              (PyException "ValueError" "bad input") 1%nat)
    as (Hresponse & _ & Htext); [reflexivity | reflexivity |].
  split; [exact Hresponse | apply Htext; discriminate].
Defined.

(** C3 as it is stated fails when the exception has no text, as
    [RuntimeError()] has: the credential resolves, the SDK raises, and
    [error] in the response is the empty string. *)
Lemma execute_tool_error_can_be_empty :
  let request :=
    {| ExecuteToolRequest.tool_name := "silent_tool";
       ExecuteToolRequest.tool_input := [];
       ExecuteToolRequest.observee_api_key := None |} in
  let w := boot configured in
  fst (get_api_key (ExecuteToolRequest.observee_api_key request) w)
    = Return "env-key"
  /\ sdk_execute_tool stub_sdk (ExecuteToolRequest.tool_name request)
       (ExecuteToolRequest.tool_input request) "env-key" (sdk_state w)
     = (Raise (PyException "RuntimeError" ""), 1%nat)
  /\ fst (respond json_ExecuteToolResponse
            (execute_tool_endpoint stub_sdk starlette request) w)
     = {| status := 200;
          body := json_ExecuteToolResponse
                    {| ExecuteToolResponse.result := PyNone;
                       ExecuteToolResponse.success := false;
                       ExecuteToolResponse.error := Some "" |} |}
  /\ (forall r,
        fst (respond json_ExecuteToolResponse
               (execute_tool_endpoint stub_sdk starlette request) w)
          = {| status := 200; body := json_ExecuteToolResponse r |} ->
        ~ nonempty_text (ExecuteToolResponse.error r)).
Proof.
  repeat split.
  intros r [= <-] (text & [= <-] & Hne). by apply Hne.
Qed.

(** C4 at a search with an unknown filter type and at a lookup with a
    revoked key. *)
Lemma search_and_lookup_failure_response_witness :
  respond json_FilterToolsResponse
    (filter_tools_endpoint stub_sdk starlette
       {| FilterToolsRequest.query := "send email";
          FilterToolsRequest.max_tools := 5;
          FilterToolsRequest.filter_type := "fuzzy";
          FilterToolsRequest.observee_api_key := None |}) (boot configured)
  = ({| status := 500;
        body := json_detail
                  "Error filtering tools: Unknown filter type: fuzzy" |},
     logged (boot configured)
       (call_filter_tools "send email" 5 "fuzzy" "env-key") 1%nat)
  /\ respond json_GetToolInfoResponse
       (get_tool_info_endpoint stub_sdk starlette
          {| GetToolInfoRequest.tool_name := "send_email";
             GetToolInfoRequest.observee_api_key := Some "revoked" |})
       (boot configured)
     = ({| status := 500;
           body := json_detail "Error getting tool info: api key revoked" |},
        logged (boot configured)
          (call_get_tool_info "send_email" "revoked") 1%nat).
Proof.
  destruct (search_and_lookup_failure_response stub_sdk starlette)
    as (Hfilter & Hinfo & _).
  split.
  - exact (Hfilter
             {| FilterToolsRequest.query := "send email";
                FilterToolsRequest.max_tools := 5;
                FilterToolsRequest.filter_type := "fuzzy";
                FilterToolsRequest.observee_api_key := None |}
             (boot configured) "env-key"
             (PyException "ValueError" "Unknown filter type: fuzzy") 1%nat
             eq_refl eq_refl).
  - exact (Hinfo
             {| GetToolInfoRequest.tool_name := "send_email";
                GetToolInfoRequest.observee_api_key := Some "revoked" |}
             (boot configured) "revoked"
             (PyException "PermissionError" "api key revoked") 1%nat
             eq_refl eq_refl).
Defined.

(** C7 at the scenario of the specification: a tool that does not exist. *)
Lemma tool_info_found_iff_witness :
  exists r,
    respond json_GetToolInfoResponse
      (get_tool_info_endpoint stub_sdk starlette
         {| GetToolInfoRequest.tool_name := "nonexistent_tool";
            GetToolInfoRequest.observee_api_key := None |}) (boot configured)
    = ({| status := 200; body := json_GetToolInfoResponse r |},
       logged (boot configured)
         (call_get_tool_info "nonexistent_tool" "env-key") 1%nat)
    /\ r = {| GetToolInfoResponse.tool_info := None;
              GetToolInfoResponse.found := false |}.
Proof.
  destruct (tool_info_found_iff stub_sdk starlette
              {| GetToolInfoRequest.tool_name := "nonexistent_tool";
                 GetToolInfoRequest.observee_api_key := None |}
              (boot configured) "env-key" None 1%nat)
    as (r & Hresponse & _ & _ & Habsent); [reflexivity | reflexivity |].
  exists r. split; [exact Hresponse | exact (Habsent eq_refl)].
Defined.

(** C8 at the scenario of the specification: "send email", at most 5. *)
Lemma filter_tools_count_witness :
  exists r,
    respond json_FilterToolsResponse
      (filter_tools_endpoint stub_sdk starlette
         {| FilterToolsRequest.query := "send email";
            FilterToolsRequest.max_tools := 5;
            FilterToolsRequest.filter_type := "local_embedding";
            FilterToolsRequest.observee_api_key := None |}) (boot configured)
    = ({| status := 200; body := json_FilterToolsResponse r |},
       logged (boot configured)
         (call_filter_tools "send email" 5 "local_embedding" "env-key") 1%nat)
    /\ FilterToolsResponse.tools r = [send_email; read_inbox]
    /\ FilterToolsResponse.count r
       = Z.of_nat (length (FilterToolsResponse.tools r)).
Proof.
  exact (filter_tools_count stub_sdk starlette
           {| FilterToolsRequest.query := "send email";
              FilterToolsRequest.max_tools := 5;
              FilterToolsRequest.filter_type := "local_embedding";
              FilterToolsRequest.observee_api_key := None |}
           (boot configured) "env-key" [send_email; read_inbox] 1%nat
           eq_refl eq_refl).
Defined.



(** C9 at one valid set of parameter values for each operation. *)
Lemma get_bindings_are_aliases_witness :
  GET_filter_tools stub_sdk starlette (Some "send email") (Some 5) None None
    (boot configured)
  = POST_filter_tools stub_sdk starlette (Some "send email") (Some 5) None None
      (boot configured)
  /\ filter_tools_get_endpoint stub_sdk starlette "send email" 5 "bm25"
       (Some "request-key") (boot unset)
     = filter_tools_endpoint stub_sdk starlette
         {| FilterToolsRequest.query := "send email";
            FilterToolsRequest.max_tools := 5;
            FilterToolsRequest.filter_type := "bm25";
            FilterToolsRequest.observee_api_key := Some "request-key" |}
         (boot unset)
  /\ GET_tool_info stub_sdk starlette "send_email" None (boot configured)
     = POST_tool_info stub_sdk starlette (Some "send_email") None
         (boot configured).
Proof.
  split; [|split].
  - destruct (get_bindings_are_aliases stub_sdk starlette (boot configured))
      as (Hvalid & _).
    refine (proj2 (proj2 (Hvalid (Some "send email") (Some 5) None None _ _))).
    apply FilterToolsRequest_init_valid. simpl. lia.
  - destruct (get_bindings_are_aliases stub_sdk starlette (boot unset))
      as (_ & _ & Hhandler & _).
    apply Hhandler. lia.
  - destruct (get_bindings_are_aliases stub_sdk starlette (boot configured))
      as (_ & _ & _ & _ & Hinfo).
    exact (proj2 (Hinfo "send_email" None eq_refl)).
Defined.

(** C9 as it is stated fails on values that do not pass validation: with
    [max_tools] 0 the two bindings answer 422 with the error located in
    the query string by GET and in the body by POST. *)
Lemma get_and_post_differ_on_invalid_values :
  GET_filter_tools stub_sdk starlette (Some "send email") (Some 0) None None
    (boot configured)
  = ({| status := 422;
        body := json_validation
                  [greater_than_equal ["query"; "max_tools"] 1] |},
     boot configured)
  /\ POST_filter_tools stub_sdk starlette (Some "send email") (Some 0) None None
       (boot configured)
     = ({| status := 422;
           body := json_validation
                     [greater_than_equal ["body"; "max_tools"] 1] |},
        boot configured)
  /\ GET_filter_tools stub_sdk starlette (Some "send email") (Some 0) None None
       (boot configured)
     <> POST_filter_tools stub_sdk starlette (Some "send email") (Some 0) None
          None (boot configured).
Proof. repeat split. discriminate. Qed.

(** * The application as a whole *)

Section Application_properties.
Context {S : Type} (sdk : SDK S) (fw : Framework).

Implicit Types (w : world S) (e : exn).

Lemma respond_world {A : Type} (encode : A -> content) (handler : py S A) w :
  snd (respond encode handler w) = snd (handler w).
Proof.
  unfold respond. by destruct (handler w) as [[a|[]] w'].
Qed.

Lemma with_model_run (route : world S -> response * world S) w :
  with_model route w = (served_response (fst (route w)), snd (route w)).
Proof. unfold with_model. by destruct (route w). Qed.

(** The GET handler of /filter-tools, on values that its [Query]
    declarations let through, is the POST handler on the model built from
    them: the second validation cannot fail. *)
Lemma filter_tools_get_endpoint_run
    (query : string) (max_tools : Z) (filter_type : string)
    (key : option string) w :
  1 <= max_tools <= 100 ->
  filter_tools_get_endpoint sdk fw query max_tools filter_type key w
  = filter_tools_endpoint sdk fw
      {| FilterToolsRequest.query := query;
         FilterToolsRequest.max_tools := max_tools;
         FilterToolsRequest.filter_type := filter_type;
         FilterToolsRequest.observee_api_key := key |} w.
Proof.
  intros Hin. unfold filter_tools_get_endpoint.
  by rewrite (FilterToolsRequest_init_valid query (Some max_tools)
                (Some filter_type) key Hin).
Qed.

(** Each route with a model either answers 422 on the spot or serves its
    handler on the validated model. *)
Lemma POST_filter_tools_run
    (query : option string) (max_tools : option Z)
    (filter_type key : option string) w :
  POST_filter_tools sdk fw query max_tools filter_type key w =
    match FilterToolsRequest_init query max_tools filter_type key with
    | inl errs => unprocessable "body" errs w
    | inr request =>
        respond json_FilterToolsResponse (filter_tools_endpoint sdk fw request) w
    end.
Proof.
  unfold POST_filter_tools.
  by destruct (FilterToolsRequest_init query max_tools filter_type key).
Qed.

Lemma GET_filter_tools_run
    (query : option string) (max_tools : option Z)
    (filter_type key : option string) w :
  GET_filter_tools sdk fw query max_tools filter_type key w =
    match FilterToolsRequest_init query max_tools filter_type key with
    | inl errs => unprocessable "query" errs w
    | inr request =>
        respond json_FilterToolsResponse (filter_tools_endpoint sdk fw request) w
    end.
Proof.
  unfold GET_filter_tools.
  destruct query as [query|].
  - destruct (decide (1 <= default 10 max_tools <= 100)) as [Hin|Hout].
    + rewrite (FilterToolsRequest_init_valid _ _ _ _ Hin).
      pose proof Hin as Hb. apply (ge_le_in_range "max_tools") in Hb.
      rewrite Hb. unfold respond.
      by rewrite filter_tools_get_endpoint_run.
    + unfold FilterToolsRequest_init.
      destruct (ge_le "max_tools" 1 100 (default 10 max_tools)) eqn:Hb; [|done].
      apply ge_le_in_range in Hb. lia.
  - unfold FilterToolsRequest_init.
    by destruct (ge_le "max_tools" 1 100 (default 10 max_tools)).
Qed.

Lemma GET_tool_info_run (tool_name : string) (key : option string) w :
  GET_tool_info sdk fw tool_name key w =
    respond json_GetToolInfoResponse
      (get_tool_info_endpoint sdk fw
         {| GetToolInfoRequest.tool_name := tool_name;
            GetToolInfoRequest.observee_api_key := key |}) w.
Proof. done. Qed.

(** The world a handler leaves: the one it found when the credential is
    missing, and otherwise that world after the one call to the SDK. *)
Lemma filter_tools_endpoint_world (request : FilterToolsRequest.t) w :
  snd (filter_tools_endpoint sdk fw request w) =
    match fst (get_api_key (FilterToolsRequest.observee_api_key request) w) with
    | Raise _ => w
    | Return api_key =>
        logged w
          (call_filter_tools (FilterToolsRequest.query request)
             (FilterToolsRequest.max_tools request)
             (FilterToolsRequest.filter_type request) api_key)
          (snd (sdk_filter_tools sdk (FilterToolsRequest.query request)
                  (FilterToolsRequest.max_tools request)
                  (FilterToolsRequest.filter_type request) api_key
                  (sdk_state w)))
    end.
Proof.
  rewrite filter_tools_endpoint_run.
  destruct (fst (get_api_key _ w)); [|done]. simpl.
  by destruct (sdk_filter_tools _ _ _ _ _ _) as [[?|?] ?].
Qed.

Lemma get_tool_info_endpoint_world (request : GetToolInfoRequest.t) w :
  snd (get_tool_info_endpoint sdk fw request w) =
    match fst (get_api_key (GetToolInfoRequest.observee_api_key request) w) with
    | Raise _ => w
    | Return api_key =>
        logged w
          (call_get_tool_info (GetToolInfoRequest.tool_name request) api_key)
          (snd (sdk_get_tool_info sdk (GetToolInfoRequest.tool_name request)
                  api_key (sdk_state w)))
    end.
Proof.
  rewrite get_tool_info_endpoint_run.
  destruct (fst (get_api_key _ w)); [|done]. simpl.
  by destruct (sdk_get_tool_info _ _ _ _) as [[?|?] ?].
Qed.

Lemma execute_tool_endpoint_world (request : ExecuteToolRequest.t) w :
  snd (execute_tool_endpoint sdk fw request w) =
    match fst (get_api_key (ExecuteToolRequest.observee_api_key request) w) with
    | Raise _ => w
    | Return api_key =>
        logged w
          (call_execute_tool (ExecuteToolRequest.tool_name request)
             (ExecuteToolRequest.tool_input request) api_key)
          (snd (sdk_execute_tool sdk (ExecuteToolRequest.tool_name request)
                  (ExecuteToolRequest.tool_input request) api_key
                  (sdk_state w)))
    end.
Proof.
  rewrite execute_tool_endpoint_run.
  destruct (fst (get_api_key _ w)); [|done]. simpl.
  by destruct (sdk_execute_tool _ _ _ _ _) as [[?|?] ?].
Qed.

Lemma get_api_key_nonempty (key : option string) w (api_key : string) :
  fst (get_api_key key w) = Return api_key -> api_key <> "".
Proof.
  rewrite get_api_key_run, truthy_resolver. simpl.
  destruct (truthy key) as [k|] eqn:Hk.
  - intros [= <-]. by apply truthy_Some in Hk as [_ ?].
  - destruct (truthy (environ w !! "OBSERVEE_API_KEY")) as [k|] eqn:He;
      [|discriminate].
    intros [= <-]. by apply truthy_Some in He as [_ ?].
Qed.

Lemma logged_inv w (c c' : call) (s s' : S) :
  logged w c s = logged w c' s' -> c = c'.
Proof.
  unfold logged. intros [= Hc _]. apply app_inv_head in Hc. congruence.
Qed.

Lemma logged_neq w (c : call) (s : S) : w <> logged w c s.
Proof.
  intros Heq. apply (f_equal (fun x => length (calls x))) in Heq.
  simpl in Heq. rewrite length_app in Heq. simpl in Heq. lia.
Qed.

(** One request: the world is left as it was, or it has one more call,
    of the operation of the route and well formed. *)
Lemma app_world (request : http_request) w :
  snd (app sdk fw request w) = w
  \/ exists c s,
       snd (app sdk fw request w) = logged w c s
       /\ serves request c = true
       /\ well_formed_call c.
Proof.
  assert (Hfilter : forall (r : FilterToolsRequest.t),
    1 <= FilterToolsRequest.max_tools r <= 100 ->
    snd (filter_tools_endpoint sdk fw r w) = w
    \/ exists c s, snd (filter_tools_endpoint sdk fw r w) = logged w c s
         /\ serves (post_filter_tools None None None None) c = true
         /\ well_formed_call c).
  { intros r Hin. rewrite filter_tools_endpoint_world.
    destruct (fst (get_api_key _ w)) as [k|] eqn:Hk; [|by left].
    right. do 2 eexists. split; [reflexivity|]. split; [done|].
    split; [|done]. by eapply get_api_key_nonempty. }
  assert (Hinfo : forall (r : GetToolInfoRequest.t),
    snd (get_tool_info_endpoint sdk fw r w) = w
    \/ exists c s, snd (get_tool_info_endpoint sdk fw r w) = logged w c s
         /\ serves (post_tool_info None None) c = true
         /\ well_formed_call c).
  { intros r. rewrite get_tool_info_endpoint_world.
    destruct (fst (get_api_key _ w)) as [k|] eqn:Hk; [|by left].
    right. do 2 eexists. split; [reflexivity|]. split; [done|].
    split; [|done]. by eapply get_api_key_nonempty. }
  assert (Hexecute : forall (r : ExecuteToolRequest.t),
    snd (execute_tool_endpoint sdk fw r w) = w
    \/ exists c s, snd (execute_tool_endpoint sdk fw r w) = logged w c s
         /\ serves (post_execute_tool None None None) c = true
         /\ well_formed_call c).
  { intros r. rewrite execute_tool_endpoint_world.
    destruct (fst (get_api_key _ w)) as [k|] eqn:Hk; [|by left].
    right. do 2 eexists. split; [reflexivity|]. split; [done|].
    split; [|done]. by eapply get_api_key_nonempty. }
  destruct request as [|q m f k|q m f k|t k|t k|t i k|]; simpl;
    rewrite ?with_model_run; simpl.
  - by left.
  - rewrite POST_filter_tools_run.
    destruct (FilterToolsRequest_init q m f k) as [errs|r] eqn:Hinit;
      [by left|].
    rewrite respond_world. apply Hfilter.
    by apply FilterToolsRequest_init_inr in Hinit as (_ & _ & ? & _).
  - rewrite GET_filter_tools_run.
    destruct (FilterToolsRequest_init q m f k) as [errs|r] eqn:Hinit;
      [by left|].
    rewrite respond_world. apply Hfilter.
    by apply FilterToolsRequest_init_inr in Hinit as (_ & _ & ? & _).
  - unfold POST_tool_info.
    destruct (GetToolInfoRequest_init t k) as [errs|r]; [by left|].
    rewrite respond_world. apply Hinfo.
  - rewrite GET_tool_info_run, respond_world. apply Hinfo.
  - unfold POST_execute_tool.
    destruct (ExecuteToolRequest_init t i k) as [errs|r]; [by left|].
    rewrite respond_world. apply Hexecute.
  - by left.
Qed.

(** X1: whatever the request, the application leaves [os.environ] as it
    was and calls the SDK at most once, with the operation the route stands
    for; GET / and GET /health never call it. *)
Theorem app_calls_the_sdk_at_most_once (request : http_request) w :
  environ (snd (app sdk fw request w)) = environ w
  /\ (snd (app sdk fw request w) = w
      \/ exists c s,
           snd (app sdk fw request w) = logged w c s
           /\ serves request c = true)
  /\ (request = get_root \/ request = get_health ->
      snd (app sdk fw request w) = w).
Proof.
  split; [|split].
  - destruct (app_world request w) as [-> | (c & s & -> & _)]; done.
  - destruct (app_world request w) as [Hw | (c & s & Hw & Hc & _)];
      [by left|]. right. by exists c, s.
  - by intros [-> | ->].
Qed.

(** X2: for every request that matches a route, the response is one of:
    200 with the body of the route (a dict for GET / and GET /health, the
    model that the route declares otherwise); 422 with a list of at least
    one validation error; 500.  No route answers with the 400 that
    [get_api_key] raises. *)
Theorem app_status_and_body (request : http_request) w :
  routable request = true ->
  match fst (app sdk fw request w) with
  | served_dict status _ =>
      status = 200 /\ (request = get_root \/ request = get_health)
  | served_response r =>
      status r <> 400
      /\ match body r with
         | json_FilterToolsResponse _ as c
         | json_GetToolInfoResponse _ as c
         | json_ExecuteToolResponse _ as c =>
             status r = 200 /\ answers request c = true
         | json_validation errs => status r = 422 /\ errs <> []
         | json_detail _ | text_plain _ => status r = 500
         end
  end.
Proof.
  intros _.
  assert (Hfilter : forall (m : FilterToolsRequest.t),
    match body (fst (respond json_FilterToolsResponse
                       (filter_tools_endpoint sdk fw m) w)) with
    | json_FilterToolsResponse _ =>
        status (fst (respond json_FilterToolsResponse
                       (filter_tools_endpoint sdk fw m) w)) = 200
    | json_detail _ =>
        status (fst (respond json_FilterToolsResponse
                       (filter_tools_endpoint sdk fw m) w)) = 500
    | _ => False
    end).
  { intros m. unfold respond. rewrite filter_tools_endpoint_run.
    destruct (fst (get_api_key _ w)); [|done]. simpl.
    by destruct (sdk_filter_tools _ _ _ _ _ _) as [[?|?] ?]. }
  assert (Hinfo : forall (m : GetToolInfoRequest.t),
    match body (fst (respond json_GetToolInfoResponse
                       (get_tool_info_endpoint sdk fw m) w)) with
    | json_GetToolInfoResponse _ =>
        status (fst (respond json_GetToolInfoResponse
                       (get_tool_info_endpoint sdk fw m) w)) = 200
    | json_detail _ =>
        status (fst (respond json_GetToolInfoResponse
                       (get_tool_info_endpoint sdk fw m) w)) = 500
    | _ => False
    end).
  { intros m. unfold respond. rewrite get_tool_info_endpoint_run.
    destruct (fst (get_api_key _ w)); [|done]. simpl.
    by destruct (sdk_get_tool_info _ _ _ _) as [[?|?] ?]. }
  assert (Hexecute : forall (m : ExecuteToolRequest.t),
    match body (fst (respond json_ExecuteToolResponse
                       (execute_tool_endpoint sdk fw m) w)) with
    | json_ExecuteToolResponse _ =>
        status (fst (respond json_ExecuteToolResponse
                       (execute_tool_endpoint sdk fw m) w)) = 200
    | _ => False
    end).
  { intros m. unfold respond. rewrite execute_tool_endpoint_run.
    destruct (fst (get_api_key _ w)); [|done]. simpl.
    by destruct (sdk_execute_tool _ _ _ _ _) as [[?|?] ?]. }
  destruct request as [|q m f k|q m f k|t k|t k|t i k|]; simpl;
    rewrite ?with_model_run; simpl.
  - auto.
  - rewrite POST_filter_tools_run.
    destruct (FilterToolsRequest_init q m f k) as [errs|model] eqn:Hinit.
    + apply FilterToolsRequest_init_inl in Hinit as (Hne & _).
      simpl. split; [done|]. split; [done|]. by destruct errs.
    + specialize (Hfilter model).
      destruct (body _); try done; rewrite Hfilter; done.
  - rewrite GET_filter_tools_run.
    destruct (FilterToolsRequest_init q m f k) as [errs|model] eqn:Hinit.
    + apply FilterToolsRequest_init_inl in Hinit as (Hne & _).
      simpl. split; [done|]. split; [done|]. by destruct errs.
    + specialize (Hfilter model).
      destruct (body _); try done; rewrite Hfilter; done.
  - unfold POST_tool_info. destruct t as [t|]; simpl; [|done].
    specialize (Hinfo {| GetToolInfoRequest.tool_name := t;
                         GetToolInfoRequest.observee_api_key := k |}).
    destruct (body _); try done; rewrite Hinfo; done.
  - rewrite GET_tool_info_run.
    specialize (Hinfo {| GetToolInfoRequest.tool_name := t;
                         GetToolInfoRequest.observee_api_key := k |}).
    destruct (body _); try done; rewrite Hinfo; done.
  - unfold POST_execute_tool.
    destruct t as [t|], i as [i|]; simpl; try done.
    specialize (Hexecute {| ExecuteToolRequest.tool_name := t;
                            ExecuteToolRequest.tool_input := i;
                            ExecuteToolRequest.observee_api_key := k |}).
    destruct (body _); try done; rewrite Hexecute; done.
  - auto.
Qed.

(** X3: the SDK is never called with an empty key, and its [filter_tools]
    is never called with [max_tools] outside [1,100]: whatever call a
    request causes satisfies both. *)
Theorem sdk_call_is_well_formed (request : http_request) w (c : call) (s : S) :
  snd (app sdk fw request w) = logged w c s ->
  call_api_key c <> ""
  /\ match c with
     | call_filter_tools _ max_tools _ _ => 1 <= max_tools <= 100
     | _ => True
     end.
Proof.
  destruct (app_world request w) as [-> | (c' & s' & -> & _ & Hc)].
  - intros Hw. by apply logged_neq in Hw.
  - by intros <-%logged_inv.
Qed.

(** X4: once the credential resolves, a valid request reaches the SDK with
    the values it carried: the query, the tool name and the tool input
    unchanged, [max_tools] and [filter_type] as given or at their defaults
    10 and "local_embedding", through the POST route and through the GET
    route alike, and whatever the SDK then returns or raises. *)
Theorem sdk_receives_the_request (key : option string) w (api_key : string) :
  fst (get_api_key key w) = Return api_key ->
  (forall query max_tools filter_type,
      1 <= default 10 max_tools <= 100 ->
      calls (snd (POST_filter_tools sdk fw (Some query) max_tools filter_type
                    key w))
        = calls w ++ [call_filter_tools query (default 10 max_tools)
                        (default "local_embedding" filter_type) api_key]
      /\ calls (snd (GET_filter_tools sdk fw (Some query) max_tools filter_type
                       key w))
        = calls w ++ [call_filter_tools query (default 10 max_tools)
                        (default "local_embedding" filter_type) api_key])
  /\ (forall tool_name,
        calls (snd (POST_tool_info sdk fw (Some tool_name) key w))
          = calls w ++ [call_get_tool_info tool_name api_key]
        /\ calls (snd (GET_tool_info sdk fw tool_name key w))
          = calls w ++ [call_get_tool_info tool_name api_key])
  /\ (forall tool_name tool_input,
        calls (snd (POST_execute_tool sdk fw (Some tool_name) (Some tool_input)
                      key w))
          = calls w ++ [call_execute_tool tool_name tool_input api_key]).
Proof.
  intros Hkey. split; [|split].
  - intros query max_tools filter_type Hin.
    rewrite POST_filter_tools_run, GET_filter_tools_run.
    rewrite (FilterToolsRequest_init_valid _ _ _ _ Hin).
    rewrite respond_world, filter_tools_endpoint_world. simpl.
    by rewrite Hkey.
  - intros tool_name. rewrite GET_tool_info_run. unfold POST_tool_info. simpl.
    rewrite respond_world, get_tool_info_endpoint_world. simpl.
    by rewrite Hkey.
  - intros tool_name tool_input. unfold POST_execute_tool. simpl.
    rewrite respond_world, execute_tool_endpoint_world. simpl.
    by rewrite Hkey.
Qed.

(** X5: a response depends on the credential only through the key it
    resolves to.  Two requests that carry the same fields and whose
    credentials resolve to the same key, from the request or from the
    environment, get the same response and leave the SDK in the same
    state, when the SDK starts in the same state. *)
Theorem credential_source_is_irrelevant
    (key1 key2 : option string) (w1 w2 : world S) (api_key : string) :
  fst (get_api_key key1 w1) = Return api_key ->
  fst (get_api_key key2 w2) = Return api_key ->
  sdk_state w1 = sdk_state w2 ->
  (forall query max_tools filter_type,
      fst (POST_filter_tools sdk fw query max_tools filter_type key1 w1)
        = fst (POST_filter_tools sdk fw query max_tools filter_type key2 w2)
      /\ sdk_state (snd (POST_filter_tools sdk fw query max_tools filter_type
                           key1 w1))
        = sdk_state (snd (POST_filter_tools sdk fw query max_tools filter_type
                            key2 w2)))
  /\ (forall tool_name,
        fst (POST_tool_info sdk fw tool_name key1 w1)
          = fst (POST_tool_info sdk fw tool_name key2 w2)
        /\ sdk_state (snd (POST_tool_info sdk fw tool_name key1 w1))
          = sdk_state (snd (POST_tool_info sdk fw tool_name key2 w2)))
  /\ (forall tool_name tool_input,
        fst (POST_execute_tool sdk fw tool_name tool_input key1 w1)
          = fst (POST_execute_tool sdk fw tool_name tool_input key2 w2)
        /\ sdk_state (snd (POST_execute_tool sdk fw tool_name tool_input
                             key1 w1))
          = sdk_state (snd (POST_execute_tool sdk fw tool_name tool_input
                              key2 w2))).
Proof.
  intros Hkey1 Hkey2 Hstate. split; [|split].
  - intros query max_tools filter_type.
    unfold POST_filter_tools, FilterToolsRequest_init.
    destruct query as [query|];
      destruct (ge_le "max_tools" 1 100 (default 10 max_tools)); try done.
    unfold respond. rewrite !filter_tools_endpoint_run. simpl.
    rewrite Hkey1, Hkey2, Hstate. simpl.
    by destruct (sdk_filter_tools _ _ _ _ _ _) as [[?|?] ?].
  - intros tool_name. unfold POST_tool_info, GetToolInfoRequest_init.
    destruct tool_name as [tool_name|]; [|done].
    unfold respond. rewrite !get_tool_info_endpoint_run. simpl.
    rewrite Hkey1, Hkey2, Hstate. simpl.
    by destruct (sdk_get_tool_info _ _ _ _) as [[?|?] ?].
  - intros tool_name tool_input.
    unfold POST_execute_tool, ExecuteToolRequest_init.
    destruct tool_name as [tool_name|], tool_input as [tool_input|]; try done.
    unfold respond. rewrite !execute_tool_endpoint_run. simpl.
    rewrite Hkey1, Hkey2, Hstate. simpl.
    by destruct (sdk_execute_tool _ _ _ _ _) as [[?|?] ?].
Qed.

(** X6: in every response that the handler of POST /execute-tool returns,
    [success] is true exactly when [error] is null; when [success] is
    false, [result] is null; when it is true, the credential resolved and
    [result] is what the SDK's [execute_tool] returned for the request. *)
Theorem execute_tool_success_xor_error
    (request : ExecuteToolRequest.t) w (r : ExecuteToolResponse.t) :
  fst (execute_tool_endpoint sdk fw request w) = Return r ->
  (ExecuteToolResponse.success r = true
   <-> ExecuteToolResponse.error r = None)
  /\ (ExecuteToolResponse.success r = false ->
      ExecuteToolResponse.result r = PyNone)
  /\ (ExecuteToolResponse.success r = true ->
      exists api_key,
        fst (get_api_key (ExecuteToolRequest.observee_api_key request) w)
          = Return api_key
        /\ fst (sdk_execute_tool sdk (ExecuteToolRequest.tool_name request)
                  (ExecuteToolRequest.tool_input request) api_key
                  (sdk_state w))
           = Return (ExecuteToolResponse.result r)).
Proof.
  rewrite execute_tool_endpoint_run.
  destruct (fst (get_api_key _ w)) as [api_key|e]; simpl.
  - destruct (sdk_execute_tool _ _ _ _ _) as [[result|e] s] eqn:Hsdk;
      intros [= <-]; simpl.
    + split; [done|]. split; [done|]. intros _. exists api_key.
      by rewrite Hsdk.
    + split; [done|]. split; done.
  - intros [= <-]. simpl. split; [done|]. split; done.
Qed.

(** X7: when the credential resolves and the SDK's [execute_tool] returns
    a value, the response has status 200, [result] is that value
    unchanged, [success] is true and [error] is null; the SDK was called
    once. *)
Theorem execute_tool_success_response
    (request : ExecuteToolRequest.t) w (api_key : string)
    (result : pyval) (s : S) :
  fst (get_api_key (ExecuteToolRequest.observee_api_key request) w)
    = Return api_key ->
  sdk_execute_tool sdk (ExecuteToolRequest.tool_name request)
    (ExecuteToolRequest.tool_input request) api_key (sdk_state w)
    = (Return result, s) ->
  respond json_ExecuteToolResponse (execute_tool_endpoint sdk fw request) w
    = ({| status := 200;
          body := json_ExecuteToolResponse
                    {| ExecuteToolResponse.result := result;
                       ExecuteToolResponse.success := true;
                       ExecuteToolResponse.error := None |} |},
       logged w (call_execute_tool (ExecuteToolRequest.tool_name request)
                   (ExecuteToolRequest.tool_input request) api_key) s).
Proof.
  intros Hkey Hsdk. unfold respond.
  rewrite execute_tool_endpoint_run, Hkey. simpl. by rewrite Hsdk.
Qed.

(** X8: when the credential of a POST /execute-tool request cannot be
    resolved, the SDK is not called and the response has status 200 with
    [success] false, [result] null and, as [error], the text of the 400
    that the resolver raised. *)
Theorem execute_tool_missing_credential
    (request : ExecuteToolRequest.t) w e :
  fst (get_api_key (ExecuteToolRequest.observee_api_key request) w)
    = Raise e ->
  respond json_ExecuteToolResponse (execute_tool_endpoint sdk fw request) w
    = ({| status := 200;
          body := json_ExecuteToolResponse
                    {| ExecuteToolResponse.result := PyNone;
                       ExecuteToolResponse.success := false;
                       ExecuteToolResponse.error :=
                         Some (str fw (HTTPException 400
                                         missing_credential_message)) |} |},
       w).
Proof.
  intros Hkey. pose proof (get_api_key_raises _ _ _ Hkey) as ->.
  unfold respond. rewrite execute_tool_endpoint_run. by rewrite Hkey.
Qed.

(** X11: after any sequence of requests, served one after the other,
    [os.environ] is what it was, every request has its response, and the
    log of SDK calls has grown by at most one call per request, each of
    them well formed (a key that is not empty, [max_tools] within
    [1,100]). *)
Theorem serve_invariant (requests : list http_request) w :
  environ (snd (serve sdk fw requests w)) = environ w
  /\ length (fst (serve sdk fw requests w)) = length requests
  /\ exists new,
       calls (snd (serve sdk fw requests w)) = calls w ++ new
       /\ (length new <= length requests)%nat
       /\ Forall well_formed_call new.
Proof.
  revert w. induction requests as [|request requests IH]; intros w.
  - simpl. split; [done|]. split; [done|]. exists [].
    by rewrite app_nil_r.
  - simpl. pose proof (app_world request w) as Hstep.
    destruct (app sdk fw request w) as [r w1]. simpl in Hstep.
    specialize (IH w1).
    destruct (serve sdk fw requests w1) as [rs w2]. simpl in IH |- *.
    destruct IH as (Henv & Hlen & new & Hcalls & Hnew & Hwf).
    destruct Hstep as [-> | (c & s & -> & _ & Hc)].
    + split; [done|]. split; [by rewrite Hlen|].
      exists new. split; [done|]. split; [lia|done].
    + split; [done|]. split; [by rewrite Hlen|].
      exists (c :: new). simpl in Hcalls.
      split; [by rewrite Hcalls, <- app_assoc|].
      split; [simpl; lia|]. by constructor.
Qed.

(** X12: when the handler of /filter-tools or of /tool-info is answered
    with a detail, the status is 500 and the detail is the prefix of the
    handler followed by [str(e)], where [e] is the exception that
    [get_api_key] raised for the request or, the credential resolved, the
    exception that the SDK raised on the call made with the resolved key:
    a 500 has no other origin. *)
Theorem server_error_carries_the_exception w (detail : string) :
  (forall (request : FilterToolsRequest.t),
      body (fst (respond json_FilterToolsResponse
                   (filter_tools_endpoint sdk fw request) w))
        = json_detail detail ->
      status (fst (respond json_FilterToolsResponse
                     (filter_tools_endpoint sdk fw request) w)) = 500
      /\ exists e,
           detail = "Error filtering tools: " +:+ str fw e
           /\ (fst (get_api_key
                      (FilterToolsRequest.observee_api_key request) w)
                 = Raise e
               \/ exists api_key,
                    fst (get_api_key
                           (FilterToolsRequest.observee_api_key request) w)
                      = Return api_key
                    /\ fst (sdk_filter_tools sdk
                              (FilterToolsRequest.query request)
                              (FilterToolsRequest.max_tools request)
                              (FilterToolsRequest.filter_type request)
                              api_key (sdk_state w))
                       = Raise e))
  /\ (forall (request : GetToolInfoRequest.t),
        body (fst (respond json_GetToolInfoResponse
                     (get_tool_info_endpoint sdk fw request) w))
          = json_detail detail ->
        status (fst (respond json_GetToolInfoResponse
                       (get_tool_info_endpoint sdk fw request) w)) = 500
        /\ exists e,
             detail = "Error getting tool info: " +:+ str fw e
             /\ (fst (get_api_key
                        (GetToolInfoRequest.observee_api_key request) w)
                   = Raise e
                 \/ exists api_key,
                      fst (get_api_key
                             (GetToolInfoRequest.observee_api_key request) w)
                        = Return api_key
                      /\ fst (sdk_get_tool_info sdk
                                (GetToolInfoRequest.tool_name request)
                                api_key (sdk_state w))
                         = Raise e)).
Proof.
  split; intros request; unfold respond.
  - rewrite filter_tools_endpoint_run.
    destruct (fst (get_api_key _ w)) as [k|e]; simpl.
    + destruct (sdk_filter_tools _ _ _ _ _ _) as [[?|e] ?] eqn:Hsdk; simpl;
        [discriminate|]. intros [= <-]. split; [done|]. exists e.
      split; [done|]. right. exists k. by rewrite Hsdk.
    + intros [= <-]. split; [done|]. exists e. split; [done | by left].
  - rewrite get_tool_info_endpoint_run.
    destruct (fst (get_api_key _ w)) as [k|e]; simpl.
    + destruct (sdk_get_tool_info _ _ _ _) as [[?|e] ?] eqn:Hsdk; simpl;
        [discriminate|]. intros [= <-]. split; [done|]. exists e.
      split; [done|]. right. exists k. by rewrite Hsdk.
    + intros [= <-]. split; [done|]. exists e. split; [done | by left].
Qed.

End Application_properties.

(** X9: [FilterToolsRequest] accepts its arguments exactly when [query] is
    given and [max_tools], or its default 10, lies in [1,100]; the model
    then holds the arguments with the defaults filled in.  [filter_type]
    and [observee_api_key] are never a reason to reject, and a rejection
    lists at least one error. *)
Theorem FilterToolsRequest_validation
    (query : option string) (max_tools : option Z)
    (filter_type key : option string) :
  ((exists request,
       FilterToolsRequest_init query max_tools filter_type key = inr request)
   <-> query <> None /\ 1 <= default 10 max_tools <= 100)
  /\ (forall request,
        FilterToolsRequest_init query max_tools filter_type key = inr request ->
        query = Some (FilterToolsRequest.query request)
        /\ FilterToolsRequest.max_tools request = default 10 max_tools
        /\ FilterToolsRequest.filter_type request
           = default "local_embedding" filter_type
        /\ FilterToolsRequest.observee_api_key request = key)
  /\ (forall errs,
        FilterToolsRequest_init query max_tools filter_type key = inl errs ->
        errs <> []
        /\ forall filter_type' key',
             FilterToolsRequest_init query max_tools filter_type' key'
             = inl errs).
Proof.
  split; [|split].
  - split.
    + intros [request Hinit].
      apply FilterToolsRequest_init_inr in Hinit as (-> & Hm & Hin & _).
      split; [done|]. by rewrite <- Hm.
    + intros [Hq Hin]. destruct query as [query|]; [|done].
      eexists. by apply FilterToolsRequest_init_valid.
  - intros request Hinit.
    by apply FilterToolsRequest_init_inr in Hinit as (? & ? & _ & ? & ?).
  - intros errs Hinit.
    by apply FilterToolsRequest_init_inl in Hinit as (? & _ & ?).
Qed.

(** X10: [ExecuteToolRequest] requires [tool_name] and [tool_input] and
    nothing more of them: it accepts them exactly when both are given, an
    empty name and an empty input included, and otherwise lists one
    [field_required] error for each that is missing. *)
Theorem ExecuteToolRequest_validation
    (tool_name : option string) (tool_input : option pydict)
    (key : option string) :
  (forall name input,
      tool_name = Some name -> tool_input = Some input ->
      ExecuteToolRequest_init tool_name tool_input key
      = inr {| ExecuteToolRequest.tool_name := name;
               ExecuteToolRequest.tool_input := input;
               ExecuteToolRequest.observee_api_key := key |})
  /\ (tool_name = None \/ tool_input = None ->
      exists errs,
        ExecuteToolRequest_init tool_name tool_input key = inl errs
        /\ (field_required ["tool_name"] ∈ errs <-> tool_name = None)
        /\ (field_required ["tool_input"] ∈ errs <-> tool_input = None)
        /\ length errs
           = (match tool_name with Some _ => 0 | None => 1 end
              + match tool_input with Some _ => 0 | None => 1 end)%nat).
Proof.
  split.
  - by intros name input -> ->.
  - intros Hmissing.
    destruct tool_name as [name|], tool_input as [input|];
      [by destruct Hmissing | | |]; clear Hmissing;
      eexists; (split; [reflexivity|]); simpl;
      rewrite ?elem_of_cons, ?elem_of_nil; intuition congruence.
Qed.

(** * The application properties on the stub SDK *)

(** X1 at a health check and at a search. *)
Lemma app_calls_the_sdk_at_most_once_witness :
  snd (app stub_sdk starlette get_health (boot unset)) = boot unset
  /\ environ (snd (app stub_sdk starlette
                     (post_filter_tools (Some "send email") None None None)
                     (boot configured)))
     = configured.
Proof.
  split.
  - destruct (app_calls_the_sdk_at_most_once stub_sdk starlette get_health
                (boot unset)) as (_ & _ & Hstill).
    apply Hstill. by right.
  - exact (proj1 (app_calls_the_sdk_at_most_once stub_sdk starlette
                    (post_filter_tools (Some "send email") None None None)
                    (boot configured))).
Defined.

(** X3 at a search that takes the key from the environment. *)
Lemma sdk_call_is_well_formed_witness :
  call_api_key (call_filter_tools "send email" 10 "local_embedding" "env-key")
    <> ""
  /\ 1 <= 10 <= 100.
Proof.
  exact (sdk_call_is_well_formed stub_sdk starlette
           (get_filter_tools (Some "send email") None None None)
           (boot configured)
           (call_filter_tools "send email" 10 "local_embedding" "env-key")
           1%nat eq_refl).
Defined.

(** X4 at a request that leaves [max_tools] and [filter_type] out. *)
Lemma sdk_receives_the_request_witness :
  calls (snd (POST_filter_tools stub_sdk starlette (Some "send email") None None
                (Some "request-key") (boot configured)))
    = [] ++ [call_filter_tools "send email" 10 "local_embedding" "request-key"]
  /\ calls (snd (GET_filter_tools stub_sdk starlette (Some "send email") None
                   None (Some "request-key") (boot configured)))
    = [] ++ [call_filter_tools "send email" 10 "local_embedding" "request-key"].
Proof.
  destruct (sdk_receives_the_request stub_sdk starlette (Some "request-key")
              (boot configured) "request-key" eq_refl) as (Hfilter & _).
  apply (Hfilter "send email" None None). simpl. lia.
Defined.

(** X5 at a key given in the request and the same key configured. *)
Lemma credential_source_is_irrelevant_witness :
  fst (POST_tool_info stub_sdk starlette (Some "send_email") (Some "env-key")
         (boot unset))
  = fst (POST_tool_info stub_sdk starlette (Some "send_email") None
           (boot configured)).
Proof.
  destruct (credential_source_is_irrelevant stub_sdk starlette
              (Some "env-key") None (boot unset) (boot configured) "env-key"
              eq_refl eq_refl eq_refl) as (_ & Hinfo & _).
  exact (proj1 (Hinfo (Some "send_email"))).
Defined.

(** X7 at a tool that runs. *)
Lemma execute_tool_success_response_witness :
  respond json_ExecuteToolResponse
    (execute_tool_endpoint stub_sdk starlette
       {| ExecuteToolRequest.tool_name := "send_email";
          ExecuteToolRequest.tool_input := [("to", PyStr "a@b.c")];
          ExecuteToolRequest.observee_api_key := None |}) (boot configured)
  = ({| status := 200;
        body := json_ExecuteToolResponse
                  {| ExecuteToolResponse.result :=
                       PyDict [("tool", PyStr "send_email");
                               ("input", PyDict [("to", PyStr "a@b.c")])];
                     ExecuteToolResponse.success := true;
                     ExecuteToolResponse.error := None |} |},
     logged (boot configured)
       (call_execute_tool "send_email" [("to", PyStr "a@b.c")] "env-key") 1%nat).
Proof.
  exact (execute_tool_success_response stub_sdk starlette
           {| ExecuteToolRequest.tool_name := "send_email";
              ExecuteToolRequest.tool_input := [("to", PyStr "a@b.c")];
              ExecuteToolRequest.observee_api_key := None |}
           (boot configured) "env-key"
           (PyDict [("tool", PyStr "send_email");
                    ("input", PyDict [("to", PyStr "a@b.c")])])
           1%nat eq_refl eq_refl).
Defined.

(** X8 at a request without a key, in a process without the variable. *)
Lemma execute_tool_missing_credential_witness :
  respond json_ExecuteToolResponse
    (execute_tool_endpoint stub_sdk starlette
       {| ExecuteToolRequest.tool_name := "send_email";
          ExecuteToolRequest.tool_input := [];
          ExecuteToolRequest.observee_api_key := Some "" |}) (boot unset)
  = ({| status := 200;
        body := json_ExecuteToolResponse
                  {| ExecuteToolResponse.result := PyNone;
                     ExecuteToolResponse.success := false;
                     ExecuteToolResponse.error :=
                       Some (str starlette
                               (HTTPException 400 missing_credential_message)) |} |},
     boot unset).
Proof.
  exact (execute_tool_missing_credential stub_sdk starlette
           {| ExecuteToolRequest.tool_name := "send_email";
              ExecuteToolRequest.tool_input := [];
              ExecuteToolRequest.observee_api_key := Some "" |}
           (boot unset) (HTTPException 400 missing_credential_message)
           eq_refl).
Defined.

(** X9 at an accepted and at a rejected set of arguments. *)
Lemma FilterToolsRequest_validation_witness :
  (exists request,
      FilterToolsRequest_init (Some "send email") (Some 100) None None
      = inr request)
  /\ FilterToolsRequest_init None (Some 101) (Some "bm25") (Some "k")
     = inl [field_required ["query"]; less_than_equal ["max_tools"] 100].
Proof.
  split.
  - apply (FilterToolsRequest_validation (Some "send email") (Some 100)
             None None).
    split; [discriminate | simpl; lia].
  - destruct (FilterToolsRequest_validation None (Some 101) None None)
      as (_ & _ & Hrejected).
    destruct (Hrejected
                [field_required ["query"]; less_than_equal ["max_tools"] 100]
                eq_refl) as (_ & Hsame).
    exact (Hsame (Some "bm25") (Some "k")).
Defined.

(** X10 at an empty name with an empty input, and at a missing input. *)
Lemma ExecuteToolRequest_validation_witness :
  ExecuteToolRequest_init (Some "") (Some []) None
  = inr {| ExecuteToolRequest.tool_name := "";
           ExecuteToolRequest.tool_input := [];
           ExecuteToolRequest.observee_api_key := None |}
  /\ exists errs,
       ExecuteToolRequest_init (Some "send_email") None None = inl errs
       /\ length errs = 1%nat.
Proof.
  split.
  - exact (proj1 (ExecuteToolRequest_validation (Some "") (Some []) None)
             "" [] eq_refl eq_refl).
  - destruct (proj2 (ExecuteToolRequest_validation (Some "send_email") None
                       None) (or_intror eq_refl))
      as (errs & Hinit & _ & _ & Hlen).
    exists errs. split; [exact Hinit | exact Hlen].
Defined.

(** X12 at a lookup with a revoked key. *)
Lemma server_error_carries_the_exception_witness :
  exists e,
    "Error getting tool info: api key revoked"
    = "Error getting tool info: " +:+ str starlette e
    /\ (fst (get_api_key (Some "revoked") (boot configured)) = Raise e
        \/ exists api_key,
             fst (get_api_key (Some "revoked") (boot configured))
               = Return api_key
             /\ fst (sdk_get_tool_info stub_sdk "send_email" api_key 0%nat)
                = Raise e).
Proof.
  exact (proj2 (proj2 (server_error_carries_the_exception stub_sdk starlette
                         (boot configured)
                         "Error getting tool info: api key revoked")
                  {| GetToolInfoRequest.tool_name := "send_email";
                     GetToolInfoRequest.observee_api_key := Some "revoked" |}
                  eq_refl)).
Defined.

(** X2 at a lookup by path. *)
Lemma app_status_and_body_witness :
  match fst (app stub_sdk starlette
               (get_tool_info_path "nonexistent_tool" None)
               (boot configured)) with
  | served_dict status _ => False
  | served_response r => status r <> 400
  end.
Proof.
  pose proof (app_status_and_body stub_sdk starlette
                (get_tool_info_path "nonexistent_tool" None)
                (boot configured) eq_refl) as H.
  destruct (fst (app stub_sdk starlette
                   (get_tool_info_path "nonexistent_tool" None)
                   (boot configured))) as [r|status d].
  - exact (proj1 H).
  - destruct H as [_ [H|H]]; discriminate H.
Defined.

(** X6 at a tool that runs. *)
Lemma execute_tool_success_xor_error_witness :
  exists api_key,
    fst (get_api_key None (boot configured)) = Return api_key
    /\ fst (sdk_execute_tool stub_sdk "send_email" [] api_key 0%nat)
       = Return (PyDict [("tool", PyStr "send_email"); ("input", PyDict [])]).
Proof.
  exact (proj2 (proj2
           (execute_tool_success_xor_error stub_sdk starlette
              {| ExecuteToolRequest.tool_name := "send_email";
                 ExecuteToolRequest.tool_input := [];
                 ExecuteToolRequest.observee_api_key := None |}
              (boot configured)
              {| ExecuteToolResponse.result :=
                   PyDict [("tool", PyStr "send_email"); ("input", PyDict [])];
                 ExecuteToolResponse.success := true;
                 ExecuteToolResponse.error := None |}
              eq_refl))
           eq_refl).
Defined.
